(** * terraform-provider-nexus: schema declarations and lifecycle callbacks

    A shallow embedding of the provider's mapping layer:
    - [nexus/resource_blobstore_file.go]   (module [Nexus]),
    - [services/security/resource_security_user_token.go] (module [Security]),
    - the HTTP client schema and the yum proxy data source of package
      [repository] (module [Repository]).

    The Terraform plugin SDK ([helper/schema], [helper/validation]) and the
    go-nexus-client library are external to the repository.  Module [Sdk]
    embeds the part of the SDK's contract the provider code relies on, and
    module [Client] states the client as a record of operations over an
    abstract remote world. *)

From Stdlib Require Import ZArith String List Bool Lia.
From stdpp Require Import base option gmap strings list pretty.

#[local] Set Warnings "-register-all".
#[local] Open Scope Z_scope.

(** Go's [error] interface; only the message is observable here. *)
Definition error : Type := string.

(* ===================================================================== *)
(** ** Go integers *)
(* ===================================================================== *)

Module GoInt.

(** [int] is 64 bits wide on every platform the provider is built for. *)
Definition int_min : Z := - 2 ^ 63.
Definition int_max : Z := 2 ^ 63 - 1.

Definition in_int (z : Z) : bool := (int_min <=? z) && (z <=? int_max).

(** Conversion to [int64]: two's complement wrap-around at 64 bits. *)
Definition int64 (z : Z) : Z := (z + 2 ^ 63) mod 2 ^ 64 - 2 ^ 63.

End GoInt.

(* ===================================================================== *)
(** ** The plugin SDK: values, schemas, validation, resource data *)
(* ===================================================================== *)

Module Sdk.

(** Dynamically typed values ([interface{}]) as they occur in schemas and
    in resource data: [nil], [bool], [int], [string], [[]interface{}] and
    [map[string]interface{}]. *)
Inductive value : Type :=
| VNil
| VBool (b : bool)
| VInt (z : Z)
| VString (s : string)
| VList (l : list value)
| VMap (m : gmap string value).

(** [schema.ValueType], restricted to the types the embedded files use.
    [TypeInvalid] is the zero value of the enumeration. *)
Inductive ValueType : Type :=
| TypeInvalid | TypeBool | TypeInt | TypeString | TypeList.

(** [schema.SchemaValidateFunc]: value and attribute key to warnings and
    errors. *)
Definition SchemaValidateFunc : Type :=
  value -> string -> list string * list error.

(** [schema.Schema].  [Elem] holds the attribute map of the nested
    [&schema.Resource{Schema: ...}] (nested blocks carry no callbacks);
    [Default] is [VNil] when no default is declared. *)
Inductive Schema : Type := mkSchema {
  Type_ : ValueType;
  Description : string;
  Required : bool;
  Optional : bool;
  Computed : bool;
  Sensitive : bool;
  MaxItems : nat;
  Default : value;
  ValidateFunc : option SchemaValidateFunc;
  Elem : option (list (string * Schema))
}.

(** A [map[string]*schema.Schema] literal. *)
Definition SchemaMap : Type := list (string * Schema).

(** The zero [schema.Schema{}], and one constructor per field a composite
    literal may mention, so that declarations list exactly the fields the
    Go literal lists. *)
Definition zeroSchema : Schema :=
  mkSchema TypeInvalid "" false false false false 0 VNil None None.

Inductive Field : Type :=
| FType (t : ValueType)
| FDescription (d : string)
| FRequired (b : bool)
| FOptional (b : bool)
| FComputed (b : bool)
| FSensitive (b : bool)
| FMaxItems (n : nat)
| FDefault (v : value)
| FValidateFunc (f : SchemaValidateFunc)
| FElem (attrs : SchemaMap).

Definition set_field (s : Schema) (f : Field) : Schema :=
  match s with
  | mkSchema t d rq op cp se mx df vf el =>
      match f with
      | FType t' => mkSchema t' d rq op cp se mx df vf el
      | FDescription d' => mkSchema t d' rq op cp se mx df vf el
      | FRequired b => mkSchema t d b op cp se mx df vf el
      | FOptional b => mkSchema t d rq b cp se mx df vf el
      | FComputed b => mkSchema t d rq op b se mx df vf el
      | FSensitive b => mkSchema t d rq op cp b mx df vf el
      | FMaxItems n => mkSchema t d rq op cp se n df vf el
      | FDefault v => mkSchema t d rq op cp se mx v vf el
      | FValidateFunc g => mkSchema t d rq op cp se mx df (Some g) el
      | FElem a => mkSchema t d rq op cp se mx df vf (Some a)
      end
  end.

Definition schema_of (fs : list Field) : Schema :=
  fold_left set_field fs zeroSchema.

(** Indexing a schema map by attribute name. *)
Fixpoint schema_lookup (k : string) (sm : SchemaMap) : option Schema :=
  match sm with
  | [] => None
  | (k', s) :: rest => if String.eqb k k' then Some s else schema_lookup k rest
  end.

(** The attribute reached by a path of names through nested blocks. *)
Fixpoint attr_at (path : list string) (sm : SchemaMap) : option Schema :=
  match path with
  | [] => None
  | [k] => schema_lookup k sm
  | k :: rest =>
      match schema_lookup k sm with
      | Some s => match Elem s with
                  | Some sub => attr_at rest sub
                  | None => None
                  end
      | None => None
      end
  end.

(** Every attribute declared in a schema, nested ones included, with the
    path that leads to it. *)
Fixpoint attributes_under (prefix : list string) (k : string) (s : Schema)
  : list (list string * Schema) :=
  match s with
  | mkSchema _ _ _ _ _ _ _ _ _ el =>
      (prefix ++ [k], s) ::
      match el with
      | None => []
      | Some sub =>
          (fix go (l : list (string * Schema)) : list (list string * Schema) :=
             match l with
             | [] => []
             | (k', s') :: rest =>
                 attributes_under (prefix ++ [k]) k' s' ++ go rest
             end) sub
      end
  end.

(** *** helper/validation *)

Module validation.

(** [fmt]'s [%v] of a [[]string]. *)
Definition fmt_strings (l : list string) : string :=
  "[" +:+ String.concat " " l +:+ "]".

(** [IntAtLeast(min)]: fails on a non-[int] and on [v < min]. *)
Definition IntAtLeast (min : Z) : SchemaValidateFunc :=
  fun i k =>
    match i with
    | VInt v =>
        if v <? min
        then ([], ["expected " +:+ k +:+ " to be at least (" +:+ pretty min
                     +:+ "), got " +:+ pretty v])
        else ([], [])
    | _ => ([], ["expected type of " +:+ k +:+ " to be integer"])
    end.

(** [IntBetween(min, max)]: fails on a non-[int] and outside
    [min..max]. *)
Definition IntBetween (min max : Z) : SchemaValidateFunc :=
  fun i k =>
    match i with
    | VInt v =>
        if (v <? min) || (max <? v)
        then ([], ["expected " +:+ k +:+ " to be in the range (" +:+ pretty min
                     +:+ " - " +:+ pretty max +:+ "), got " +:+ pretty v])
        else ([], [])
    | _ => ([], ["expected type of " +:+ k +:+ " to be integer"])
    end.

(** ASCII case folding, standing for [strings.EqualFold]. *)
Definition fold_ascii (c : Ascii.ascii) : Ascii.ascii :=
  let n := Ascii.nat_of_ascii c in
  if (Nat.leb 65 n && Nat.leb n 90)%bool
  then Ascii.ascii_of_nat (n + 32) else c.

Fixpoint fold_case (s : string) : string :=
  match s with
  | EmptyString => EmptyString
  | String c r => String (fold_ascii c) (fold_case r)
  end.

Definition EqualFold (a b : string) : bool :=
  String.eqb (fold_case a) (fold_case b).

(** [StringInSlice(valid, ignoreCase)]. *)
Definition StringInSlice (valid : list string) (ignoreCase : bool)
  : SchemaValidateFunc :=
  fun i k =>
    match i with
    | VString v =>
        if existsb (fun str => String.eqb v str
                               || (ignoreCase && EqualFold v str)) valid
        then ([], [])
        else ([], ["expected " +:+ k +:+ " to be one of " +:+ fmt_strings valid
                     +:+ ", got " +:+ v])
    | _ => ([], ["expected type of " +:+ k +:+ " to be string"])
    end.

End validation.

(** A value passes an attribute's declared validation when the
    [ValidateFunc], if any, reports no error. *)
Definition accepts (s : Schema) (k : string) (v : value) : bool :=
  match ValidateFunc s with
  | None => true
  | Some f => match snd (f v k) with [] => true | _ => false end
  end.

(** *** Typing of values against a schema *)

(** [ValueType.Zero()]. *)
Definition zero_value (t : ValueType) : value :=
  match t with
  | TypeInvalid => VNil
  | TypeBool => VBool false
  | TypeInt => VInt 0
  | TypeString => VString EmptyString
  | TypeList => VList []
  end.

(** [reflect.DeepEqual(v, t.Zero())]. *)
Definition is_zero (t : ValueType) (v : value) : bool :=
  match t, v with
  | TypeInvalid, VNil => true
  | TypeBool, VBool b => negb b
  | TypeInt, VInt z => z =? 0
  | TypeString, VString s => String.eqb s EmptyString
  | TypeList, VList l => match l with [] => true | _ :: _ => false end
  | _, _ => false
  end.

(** The top-level Go type of a value is the one the attribute declares. *)
Definition shape_matches (t : ValueType) (v : value) : bool :=
  match t, v with
  | TypeBool, VBool _ => true
  | TypeInt, VInt _ => true
  | TypeString, VString _ => true
  | TypeList, VList _ => true
  | _, _ => false
  end.

(** A value as the SDK's field readers produce it for an attribute: of the
    declared type, an [int] within range, a list within [MaxItems] whose
    elements are maps holding every attribute of the nested block. *)
Fixpoint has_type (s : Schema) (v : value) {struct s} : bool :=
  match s with
  | mkSchema t _ _ _ _ _ mx _ _ el =>
      match t, v with
      | TypeBool, VBool _ => true
      | TypeInt, VInt z => GoInt.in_int z
      | TypeString, VString _ => true
      | TypeList, VList l =>
          ((mx =? 0)%nat || (length l <=? mx)%nat)
          && match el with
             | None => true
             | Some sub =>
                 forallb
                   (fun e =>
                      match e with
                      | VMap m =>
                          (fix go (a : list (string * Schema)) : bool :=
                             match a with
                             | [] => true
                             | (k, s') :: rest =>
                                 match m !! k with
                                 | Some v' => has_type s' v'
                                 | None => false
                                 end && go rest
                             end) sub
                      | _ => false
                      end) l
             end
      | _, _ => false
      end
  end.

(** *** schema.ResourceData *)

(** The resource's schema, the attribute values currently held, and the
    resource id. *)
Record ResourceData : Type := mkResourceData {
  rd_schema : SchemaMap;
  rd_attrs : gmap string value;
  rd_id : string
}.

(** [d.Get(key)]: the stored value; the zero value of the declared type
    when the attribute is not set; [nil] for a key outside the schema. *)
Definition Get (key : string) (d : ResourceData) : value :=
  match schema_lookup key (rd_schema d) with
  | None => VNil
  | Some s =>
      match rd_attrs d !! key with
      | Some v => v
      | None => zero_value (Type_ s)
      end
  end.

(** [d.GetOk(key)]: the value of [Get], and whether the attribute is set
    to something other than the zero value of its type. *)
Definition GetOk (key : string) (d : ResourceData) : value * bool :=
  match schema_lookup key (rd_schema d) with
  | None => (VNil, false)
  | Some s =>
      match rd_attrs d !! key with
      | Some v => (v, negb (is_zero (Type_ s) v))
      | None => (zero_value (Type_ s), false)
      end
  end.

Definition Id (d : ResourceData) : string := rd_id d.

Definition SetId (v : string) (d : ResourceData) : ResourceData :=
  mkResourceData (rd_schema d) (rd_attrs d) v.

(** [d.Set(key, value)] ([Set] is a sort of the logic, hence the
    underscore): fails for a key outside the schema and for a
    value of another type than the declared one; stores the value
    otherwise. *)
Definition Set_ (key : string) (v : value) (d : ResourceData)
  : ResourceData * option error :=
  match schema_lookup key (rd_schema d) with
  | None => (d, Some ("Invalid address to set: " +:+ key))
  | Some s =>
      if shape_matches (Type_ s) v
      then (mkResourceData (rd_schema d) (<[key := v]> (rd_attrs d)) (rd_id d),
            None)
      else (d, Some (key +:+ ": value of the wrong type"))
  end.

(** Every attribute held is declared by the schema and typed by it. *)
Definition well_typed (d : ResourceData) : bool :=
  forallb
    (fun kv => match schema_lookup (fst kv) (rd_schema d) with
               | Some s => has_type s (snd kv)
               | None => false
               end)
    (map_to_list (rd_attrs d)).

End Sdk.

(* ===================================================================== *)
(** ** The Nexus client library *)
(* ===================================================================== *)

Module Client.

(** Package [schema/blobstore]. *)
Module blobstore.

Module SoftQuota.
Record t : Type := mk { Limit : Z; Type_ : string }.
End SoftQuota.

Module File.
(** [SoftQuota] is a pointer: [None] is [nil]. *)
Record t : Type := mk {
  Name : string;
  Path : string;
  SoftQuota : option SoftQuota.t
}.
End File.

Module Generic.
Record t : Type := mk {
  Name : string;
  Type_ : string;
  AvailableSpaceInBytes : Z;
  BlobCount : Z;
  SoftQuota : option SoftQuota.t;
  TotalSizeInBytes : Z
}.

(** [var g blobstore.Generic]. *)
Definition zero : t := mk EmptyString EmptyString 0 0 None 0.
End Generic.

End blobstore.

(** Package [schema/security]. *)
Module security.

Module UserTokenConfiguration.
Record t : Type := mk { Enabled : bool; ProtectContent : bool }.
End UserTokenConfiguration.

End security.

(** The requests the provider can send, with their arguments. *)
Inductive Call : Type :=
| CallBlobStoreFileCreate (bs : blobstore.File.t)
| CallBlobStoreFileGet (id : string)
| CallBlobStoreFileUpdate (id : string) (bs : blobstore.File.t)
| CallBlobStoreFileDelete (id : string)
| CallBlobStoreList
| CallSecurityUserTokensGet
| CallSecurityUserTokensConfigure (t : security.UserTokenConfiguration.t).

(** The requests that change the remote system. *)
Definition is_write (c : Call) : bool :=
  match c with
  | CallBlobStoreFileCreate _ => true
  | CallBlobStoreFileUpdate _ _ => true
  | CallBlobStoreFileDelete _ => true
  | CallSecurityUserTokensConfigure _ => true
  | CallBlobStoreFileGet _ => false
  | CallBlobStoreList => false
  | CallSecurityUserTokensGet => false
  end.

(** [*nexus.NexusClient], over an abstract remote world [W].  Every
    operation reads and may change the world.  [Create] and [Update]
    receive a pointer to the blobstore and give back the struct as they
    leave it; [Get] operations give back a pointer ([None] is [nil]) and
    an error. *)
Record NexusClient (W : Type) : Type := mkNexusClient {
  BlobStore_File_Create :
    blobstore.File.t -> W -> (blobstore.File.t * option error) * W;
  BlobStore_File_Get :
    string -> W -> (option blobstore.File.t * option error) * W;
  BlobStore_File_Update :
    string -> blobstore.File.t -> W -> (blobstore.File.t * option error) * W;
  BlobStore_File_Delete : string -> W -> option error * W;
  BlobStore_List : W -> (list blobstore.Generic.t * option error) * W;
  Security_UserTokens_Get :
    W -> (option security.UserTokenConfiguration.t * option error) * W;
  Security_UserTokens_Configure :
    security.UserTokenConfiguration.t -> W -> option error * W
}.

Arguments BlobStore_File_Create {W} _ _ _.
Arguments BlobStore_File_Get {W} _ _ _.
Arguments BlobStore_File_Update {W} _ _ _ _.
Arguments BlobStore_File_Delete {W} _ _ _.
Arguments BlobStore_List {W} _ _.
Arguments Security_UserTokens_Get {W} _ _.
Arguments Security_UserTokens_Configure {W} _ _ _.

End Client.

(* ===================================================================== *)
(** ** Running a callback *)
(* ===================================================================== *)

(** A callback runs against the resource data it was handed (a pointer, so
    its updates are visible to the caller), the remote world behind the
    client, and the log of client calls made so far.  It either finishes
    with a result or panics. *)
Module Exec.

Import Sdk Client.

Record Env (W : Type) : Type := mkEnv {
  rd : ResourceData;
  remote : W;
  calls : list Call
}.

Arguments mkEnv {W} _ _ _.
Arguments rd {W} _.
Arguments remote {W} _.
Arguments calls {W} _.

Inductive Outcome (A : Type) : Type :=
| Done (a : A)
| Panic (msg : string).

Arguments Done {A} _.
Arguments Panic {A} _.

Definition M (W A : Type) : Type := Env W -> Outcome (A * Env W).

Section Monad.
Context {W : Type}.

Definition ret {A} (a : A) : M W A := fun e => Done (a, e).

Definition bind {A B} (c : M W A) (k : A -> M W B) : M W B :=
  fun e =>
    match c e with
    | Done (a, e') => k a e'
    | Panic msg => Panic msg
    end.

Definition panic {A} (msg : string) : M W A := fun _ => Panic msg.

(** Reading and updating the resource data. *)
Definition read_rd {A} (f : ResourceData -> A) : M W A :=
  fun e => Done (f (rd e), e).

Definition update_rd (f : ResourceData -> ResourceData) : M W unit :=
  fun e => Done (tt, mkEnv (f (rd e)) (remote e) (calls e)).

Definition d_Get (key : string) : M W value := read_rd (Get key).
Definition d_GetOk (key : string) : M W (value * bool) := read_rd (GetOk key).
Definition d_Id : M W string := read_rd Id.
Definition d_SetId (v : string) : M W unit := update_rd (SetId v).

Definition d_Set (key : string) (v : value) : M W (option error) :=
  fun e =>
    let '(d', err) := Set_ key v (rd e) in
    Done (err, mkEnv d' (remote e) (calls e)).

(** A client operation: log the request, let it act on the world. *)
Definition request {A} (c : Call) (op : W -> A * W) : M W A :=
  fun e =>
    let '(a, w') := op (remote e) in
    Done (a, mkEnv (rd e) w' (calls e ++ [c])).

(** Type assertions [x.(T)] panic on a value of another type. *)
Definition as_string (v : value) : M W string :=
  match v with
  | VString s => ret s
  | _ => panic "interface conversion: interface {} is not string"
  end.

Definition as_int (v : value) : M W Z :=
  match v with
  | VInt z => ret z
  | _ => panic "interface conversion: interface {} is not int"
  end.

Definition as_bool (v : value) : M W bool :=
  match v with
  | VBool b => ret b
  | _ => panic "interface conversion: interface {} is not bool"
  end.

Definition as_list (v : value) : M W (list value) :=
  match v with
  | VList l => ret l
  | _ => panic "interface conversion: interface {} is not []interface {}"
  end.

Definition as_map (v : value) : M W (gmap string value) :=
  match v with
  | VMap m => ret m
  | _ => panic
           "interface conversion: interface {} is not map[string]interface {}"
  end.

(** [l[i]] panics out of range. *)
Definition index (l : list value) (i : nat) : M W value :=
  match l !! i with
  | Some v => ret v
  | None => panic "index out of range"
  end.

(** [m[k]] on a Go map gives [nil] for a missing key. *)
Definition map_index (m : gmap string value) (k : string) : value :=
  match m !! k with
  | Some v => v
  | None => VNil
  end.

(** Selecting a field through a pointer panics on [nil]. *)
Definition deref {A} (p : option A) : M W A :=
  match p with
  | Some a => ret a
  | None => panic "invalid memory address or nil pointer dereference"
  end.

(** [log.Print(v)] writes to the process log; it formats a [nil] pointer
    without touching what it points to. *)
Definition log_Print {A} (v : A) : M W unit := ret tt.

(** [for _, x := range l { acc = body(acc, x) }]. *)
Fixpoint range {A B} (l : list A) (body : B -> A -> M W B) (acc : B)
  : M W B :=
  match l with
  | [] => ret acc
  | x :: rest => bind (body acc x) (range rest body)
  end.

End Monad.

Notation "x <- c ;; k" := (bind c (fun x => k))
  (at level 20, c at level 99, k at level 200, only parsing).
Notation "' pat <- c ;; k" := (bind c (fun x => match x with pat => k end))
  (at level 20, pat pattern, c at level 99, k at level 200, only parsing).

(** Client operations as steps of a callback. *)
Section Requests.
Context {W : Type} (m : NexusClient W).

Definition File_Create (bs : blobstore.File.t)
  : M W (blobstore.File.t * option error) :=
  request (CallBlobStoreFileCreate bs) (BlobStore_File_Create m bs).

Definition File_Get (id : string)
  : M W (option blobstore.File.t * option error) :=
  request (CallBlobStoreFileGet id) (BlobStore_File_Get m id).

Definition File_Update (id : string) (bs : blobstore.File.t)
  : M W (blobstore.File.t * option error) :=
  request (CallBlobStoreFileUpdate id bs) (BlobStore_File_Update m id bs).

Definition File_Delete (id : string) : M W (option error) :=
  request (CallBlobStoreFileDelete id) (BlobStore_File_Delete m id).

Definition List_ : M W (list blobstore.Generic.t * option error) :=
  request CallBlobStoreList (BlobStore_List m).

Definition UserTokens_Get
  : M W (option security.UserTokenConfiguration.t * option error) :=
  request CallSecurityUserTokensGet (Security_UserTokens_Get m).

Definition UserTokens_Configure (t : security.UserTokenConfiguration.t)
  : M W (option error) :=
  request (CallSecurityUserTokensConfigure t)
          (Security_UserTokens_Configure m t).

End Requests.

(** [schema.Resource]: the lifecycle callbacks a definition declares
    ([None] for a field the literal leaves out), the importer and the
    attribute map. *)
Inductive StateFunc : Type :=
| ImportStatePassthrough
| ImportStatePassthroughContext.

Definition CallbackFunc (W : Type) : Type :=
  NexusClient W -> M W (option error).

Definition ExistsFunc (W : Type) : Type :=
  NexusClient W -> M W (bool * option error).

Record Resource (W : Type) : Type := mkResource {
  ResDescription : string;
  Create : option (CallbackFunc W);
  Read : option (CallbackFunc W);
  Update : option (CallbackFunc W);
  Delete : option (CallbackFunc W);
  Exists : option (ExistsFunc W);
  Importer : option StateFunc;
  ResSchema : SchemaMap
}.

(** A callback that, whenever it finishes, has sent the client nothing
    but requests that leave the remote system as it is. *)
Definition reads_only {W : Type} (f : CallbackFunc W) : Prop :=
  forall (m : NexusClient W) (e : Env W) (r : option error) (e' : Env W),
    f m e = Done (r, e') ->
    exists l : list Call,
      calls e' = calls e ++ l
      /\ forallb (fun c => negb (is_write c)) l = true.

Arguments mkResource {W} _ _ _ _ _ _ _ _.
Arguments ResDescription {W} _.
Arguments Create {W} _.
Arguments Read {W} _.
Arguments Update {W} _.
Arguments Delete {W} _.
Arguments Exists {W} _.
Arguments Importer {W} _.
Arguments ResSchema {W} _.

End Exec.

(* ===================================================================== *)
(** ** Package nexus: the file blobstore resource *)
(* ===================================================================== *)

Module Nexus.

Import Sdk Client Exec.
Import blobstore.

(** The attribute map of [resourceBlobstoreFile]. *)
Definition resourceBlobstoreFileSchema : SchemaMap :=
  [ ("name", schema_of
       [ FDescription "Blobstore name";
         FType TypeString;
         FRequired true ]);
    ("path", schema_of
       [ FDescription "The path to the blobstore contents. This can be an absolute path to anywhere on the system nxrm has access to or it can be a path relative to the sonatype-work directory";
         FType TypeString;
         FOptional true ]);
    ("available_space_in_bytes", schema_of
       [ FDescription "Available space in Bytes";
         FType TypeInt;
         FComputed true ]);
    ("blob_count", schema_of
       [ FDescription "Count of blobs";
         FType TypeInt;
         FComputed true ]);
    ("soft_quota", schema_of
       [ FDescription "Soft quota of the blobstore";
         FElem
           [ ("limit", schema_of
                [ FDescription "The limit in Bytes. Minimum value is 1000000";
                  FRequired true;
                  FType TypeInt;
                  FValidateFunc (validation.IntAtLeast 100000) ]);
             ("type", schema_of
                [ FDescription "The type to use such as spaceRemainingQuota, or spaceUsedQuota";
                  FRequired true;
                  FType TypeString;
                  FValidateFunc
                    (validation.StringInSlice
                       ["spaceRemainingQuota"; "spaceUsedQuota"] false) ]) ];
         FMaxItems 1;
         FOptional true;
         FType TypeList ]);
    ("total_size_in_bytes", schema_of
       [ FDescription "The total size of the blobstore in Bytes";
         FType TypeInt;
         FComputed true ]) ].

(** The minimum the description of [soft_quota.limit] states. *)
Definition documented_limit_minimum : Z := 1000000.

Section Callbacks.

Context {W : Type}.

(** [resourceBlobstoreRead] and [flattenBlobstoreSoftQuota] are defined in
    other files of the package; the callbacks below take them as
    parameters and hold for whatever they do. *)
Variable resourceBlobstoreRead : CallbackFunc W.
Variable flattenBlobstoreSoftQuota : SoftQuota.t -> value.

Definition getBlobstoreFileFromResourceData : M W File.t :=
  name <- (v <- d_Get "name" ;; as_string v) ;;
  let bs := File.mk name EmptyString None in
  '(_, ok) <- d_GetOk "path" ;;
  bs <- (if ok : bool
         then path <- (v <- d_Get "path" ;; as_string v) ;;
              ret (File.mk (File.Name bs) path (File.SoftQuota bs))
         else ret bs) ;;
  '(_, ok) <- d_GetOk "soft_quota" ;;
  bs <- (if ok : bool
         then l <- (v <- d_Get "soft_quota" ;; as_list v) ;;
              first <- index l 0 ;;
              softQuotaConfig <- as_map first ;;
              limit <- as_int (map_index softQuotaConfig "limit") ;;
              type <- as_string (map_index softQuotaConfig "type") ;;
              ret (File.mk (File.Name bs) (File.Path bs)
                     (Some (SoftQuota.mk (GoInt.int64 limit) type)))
         else ret bs) ;;
  ret bs.

Definition resourceBlobstoreFileCreate : CallbackFunc W := fun m =>
  bs <- getBlobstoreFileFromResourceData ;;
  '(bs, err) <- File_Create m bs ;;
  match err with
  | Some e => ret (Some e)
  | None =>
      _ <- d_SetId (File.Name bs) ;;
      err <- d_Set "name" (VString (File.Name bs)) ;;
      match err with
      | Some e => ret (Some e)
      | None => resourceBlobstoreRead m
      end
  end.

(** [if err := d.Set(k, v); err != nil { return err }] in sequence. *)
Fixpoint set_all (kvs : list (string * value)) (k : M W (option error))
  : M W (option error) :=
  match kvs with
  | [] => k
  | (key, v) :: rest =>
      err <- d_Set key v ;;
      match err with
      | Some e => ret (Some e)
      | None => set_all rest k
      end
  end.

Definition resourceBlobstoreFileRead : CallbackFunc W := fun m =>
  id <- d_Id ;;
  '(bs, err) <- File_Get m id ;;
  _ <- log_Print bs ;;
  match err with
  | Some e => ret (Some e)
  | None =>
      '(genericBlobstores, err) <- List_ m ;;
      match err with
      | Some e => ret (Some e)
      | None =>
          genericBlobstoreInformation <-
            range genericBlobstores
              (fun info generic =>
                 b <- deref bs ;;
                 ret (if String.eqb (Generic.Name generic) (File.Name b)
                      then generic else info))
              Generic.zero ;;
          match bs with
          | None => _ <- d_SetId EmptyString ;; ret None
          | Some b =>
              set_all
                [ ("available_space_in_bytes",
                   VInt (Generic.AvailableSpaceInBytes
                           genericBlobstoreInformation));
                  ("blob_count",
                   VInt (Generic.BlobCount genericBlobstoreInformation));
                  ("name", VString (File.Name b));
                  ("path", VString (File.Path b));
                  ("total_size_in_bytes",
                   VInt (Generic.TotalSizeInBytes
                           genericBlobstoreInformation)) ]
                (match File.SoftQuota b with
                 | Some sq =>
                     err <- d_Set "soft_quota"
                              (flattenBlobstoreSoftQuota sq) ;;
                     match err with
                     | Some e =>
                         ret (Some ("error reading soft quota: " +:+ e))
                     | None => ret None
                     end
                 | None => ret None
                 end)
          end
      end
  end.

Definition resourceBlobstoreFileUpdate : CallbackFunc W := fun m =>
  bs <- getBlobstoreFileFromResourceData ;;
  id <- d_Id ;;
  '(_, err) <- File_Update m id bs ;;
  match err with
  | Some e => ret (Some e)
  | None => ret None
  end.

Definition resourceBlobstoreFileDelete : CallbackFunc W := fun m =>
  id <- d_Id ;;
  err <- File_Delete m id ;;
  match err with
  | Some e => ret (Some e)
  | None => _ <- d_SetId EmptyString ;; ret None
  end.

Definition resourceBlobstoreFileExists : ExistsFunc W := fun m =>
  id <- d_Id ;;
  '(bs, err) <- File_Get m id ;;
  ret (match bs with Some _ => true | None => false end, err).

Definition resourceBlobstoreFile : Resource W :=
  {| ResDescription := EmptyString;
     Create := Some resourceBlobstoreFileCreate;
     Read := Some resourceBlobstoreFileRead;
     Update := Some resourceBlobstoreFileUpdate;
     Delete := Some resourceBlobstoreFileDelete;
     Exists := Some resourceBlobstoreFileExists;
     Importer := Some ImportStatePassthrough;
     ResSchema := resourceBlobstoreFileSchema |}.

End Callbacks.

End Nexus.

(* ===================================================================== *)
(** ** Package security: the user-token resource *)
(* ===================================================================== *)

Module Security.

Import Sdk Client Exec.
Import security.

Section Callbacks.

Context {W : Type}.

(** [common.ResourceID], declared in package [schema/common]; a parameter
    of the resource. *)
Variable ResourceID : Schema.

Definition resourceSecurityUserTokenSchema : SchemaMap :=
  [ ("id", ResourceID);
    ("enabled", schema_of
       [ FDescription "Activate the feature of user tokens.";
         FType TypeBool;
         FRequired true ]);
    ("protect_content", schema_of
       [ FDescription "Require user tokens for repository authentication. This does not effect UI access.";
         FType TypeBool;
         FOptional true;
         FDefault (VBool false) ]) ].

Definition getSecurityUserTokenFromResourceData
  : M W UserTokenConfiguration.t :=
  enabled <- (v <- d_Get "enabled" ;; as_bool v) ;;
  protectContent <- (v <- d_Get "protect_content" ;; as_bool v) ;;
  ret (UserTokenConfiguration.mk enabled protectContent).

(** [token] is a pointer; reading its fields panics on [nil].  The
    errors of [d.Set] are dropped. *)
Definition setSecurityUserTokenToResourceData
    (token : option UserTokenConfiguration.t) : M W unit :=
  _ <- d_SetId "golbalUserTokenConfiguration" ;;
  t <- deref token ;;
  _ <- d_Set "enabled" (VBool (UserTokenConfiguration.Enabled t)) ;;
  t <- deref token ;;
  _ <- d_Set "protect_content"
         (VBool (UserTokenConfiguration.ProtectContent t)) ;;
  ret tt.

Definition resourceSecurityUserTokenRead : CallbackFunc W := fun m =>
  '(token, err) <- UserTokens_Get m ;;
  match err with
  | Some e => ret (Some e)
  | None =>
      _ <- setSecurityUserTokenToResourceData token ;;
      ret None
  end.

Definition resourceSecurityUserTokenUpdate : CallbackFunc W := fun m =>
  token <- getSecurityUserTokenFromResourceData ;;
  err <- UserTokens_Configure m token ;;
  match err with
  | Some e => ret (Some e)
  | None => resourceSecurityUserTokenRead m
  end.

Definition resourceSecurityUserTokenDelete : CallbackFunc W := fun m =>
  ret None.

Definition ResourceSecurityUserToken : Resource W :=
  {| ResDescription := "~> PRO Feature

Use this resource to manage the global configuration for the user-tokens.";
     Create := Some resourceSecurityUserTokenUpdate;
     Read := Some resourceSecurityUserTokenRead;
     Update := Some resourceSecurityUserTokenUpdate;
     Delete := Some resourceSecurityUserTokenDelete;
     Exists := None;
     Importer := Some ImportStatePassthroughContext;
     ResSchema := resourceSecurityUserTokenSchema |}.

End Callbacks.

End Security.

(* ===================================================================== *)
(** ** Package repository: HTTP client schema, yum proxy data source *)
(* ===================================================================== *)

Module Repository.

Import Sdk Client Exec.

Definition ResourceHTTPClient : Schema :=
  schema_of
    [ FDescription "HTTP Client configuration for proxy repositories. Required for docker proxy repositories";
      FOptional true;
      FMaxItems 1;
      FType TypeList;
      FElem
        [ ("authentication", schema_of
             [ FDescription "Authentication configuration of the HTTP client";
               FMaxItems 1;
               FOptional true;
               FType TypeList;
               FElem
                 [ ("type", schema_of
                      [ FDescription "Authentication type. Possible values: `ntlm` or `username`";
                        FRequired true;
                        FType TypeString;
                        FValidateFunc
                          (validation.StringInSlice ["ntlm"; "username"] false) ]);
                   ("username", schema_of
                      [ FDescription "The username used by the proxy repository";
                        FOptional true;
                        FType TypeString ]);
                   ("password", schema_of
                      [ FDescription "The password used by the proxy repository";
                        FOptional true;
                        FSensitive true;
                        FType TypeString ]);
                   ("ntlm_domain", schema_of
                      [ FDescription "The ntlm domain to connect";
                        FOptional true;
                        FType TypeString ]);
                   ("ntlm_host", schema_of
                      [ FDescription "The ntlm host to connect";
                        FOptional true;
                        FType TypeString ]) ] ]);
          ("auto_block", schema_of
             [ FDefault (VBool true);
               FDescription "Whether to auto-block outbound connections if remote peer is detected as unreachable/unresponsive";
               FOptional true;
               FType TypeBool ]);
          ("blocked", schema_of
             [ FDefault (VBool false);
               FDescription "Whether to block outbound connections on the repository";
               FOptional true;
               FType TypeBool ]);
          ("connection", schema_of
             [ FDescription "Connection configuration of the HTTP client";
               FComputed true;
               FOptional true;
               FMaxItems 1;
               FType TypeList;
               FElem
                 [ ("enable_circular_redirects", schema_of
                      [ FDescription "Whether to enable redirects to the same location (may be required by some servers)";
                        FOptional true;
                        FType TypeBool;
                        FDefault (VBool false) ]);
                   ("enable_cookies", schema_of
                      [ FDescription "Whether to allow cookies to be stored and used";
                        FOptional true;
                        FType TypeBool;
                        FDefault (VBool false) ]);
                   ("retries", schema_of
                      [ FDescription "Total retries if the initial connection attempt suffers a timeout";
                        FOptional true;
                        FType TypeInt;
                        FDefault (VInt 0);
                        FValidateFunc (validation.IntBetween 0 10) ]);
                   ("timeout", schema_of
                      [ FDescription "Seconds to wait for activity before stopping and retrying the connection";
                        FOptional true;
                        FType TypeInt;
                        FDefault (VInt 0);
                        FValidateFunc (validation.IntBetween 0 3600) ]);
                   ("user_agent_suffix", schema_of
                      [ FDescription "Custom fragment to append to User-Agent header in HTTP requests";
                        FOptional true;
                        FType TypeString;
                        FDefault (VBool false) ]);
                   ("use_trust_store", schema_of
                      [ FDescription "Use certificates stored in the Nexus Repository Manager truststore to connect to external systems";
                        FOptional true;
                        FType TypeBool;
                        FDefault (VBool false) ]) ] ]) ] ].

Definition DataSourceHTTPClient : Schema :=
  schema_of
    [ FDescription "HTTP Client configuration for proxy repositories. Required for docker proxy repositories.";
      FComputed true;
      FType TypeList;
      FElem
        [ ("authentication", schema_of
             [ FDescription "Authentication configuration of the HTTP client";
               FComputed true;
               FType TypeList;
               FElem
                 [ ("type", schema_of
                      [ FDescription "Authentication type. Possible values: `ntlm` or `username`";
                        FComputed true;
                        FType TypeString ]);
                   ("username", schema_of
                      [ FDescription "The username used by the proxy repository";
                        FComputed true;
                        FType TypeString ]);
                   ("password", schema_of
                      [ FDescription "The password used by the proxy repository";
                        FComputed true;
                        FSensitive true;
                        FType TypeString ]);
                   ("ntlm_domain", schema_of
                      [ FDescription "The ntlm domain to connect";
                        FComputed true;
                        FType TypeString ]);
                   ("ntlm_host", schema_of
                      [ FDescription "The ntlm host to connect";
                        FComputed true;
                        FType TypeString ]) ] ]);
          ("auto_block", schema_of
             [ FDescription "Whether to auto-block outbound connections if remote peer is detected as unreachable/unresponsive";
               FComputed true;
               FType TypeBool ]);
          ("blocked", schema_of
             [ FDescription "Whether to block outbound connections on the repository";
               FComputed true;
               FType TypeBool ]);
          ("connection", schema_of
             [ FDescription "Connection configuration of the HTTP client";
               FComputed true;
               FType TypeList;
               FElem
                 [ ("enable_circular_redirects", schema_of
                      [ FDescription "Whether to enable redirects to the same location (may be required by some servers)";
                        FComputed true;
                        FType TypeBool ]);
                   ("enable_cookies", schema_of
                      [ FDescription "Whether to allow cookies to be stored and used";
                        FComputed true;
                        FType TypeBool ]);
                   ("retries", schema_of
                      [ FDescription "Total retries if the initial connection attempt suffers a timeout";
                        FComputed true;
                        FType TypeInt ]);
                   ("timeout", schema_of
                      [ FDescription "Seconds to wait for activity before stopping and retrying the connection";
                        FComputed true;
                        FType TypeInt ]);
                   ("user_agent_suffix", schema_of
                      [ FDescription "Custom fragment to append to User-Agent header in HTTP requests";
                        FComputed true;
                        FType TypeString ]);
                   ("use_trust_store", schema_of
                      [ FDescription "Use certificates stored in the Nexus Repository Manager truststore to connect to external systems";
                        FComputed true;
                        FType TypeBool ]) ] ]) ] ].

(** An attribute that declares a [Default] declares one of its own type:
    a [bool] for [TypeBool], an [int] for [TypeInt], a [string] for
    [TypeString]. *)
Definition default_of_declared_type (s : Schema) : bool :=
  match Default s with
  | VNil => true
  | d =>
      match Type_ s with
      | TypeBool => match d with VBool _ => true | _ => false end
      | TypeInt => match d with VInt _ => true | _ => false end
      | TypeString => match d with VString _ => true | _ => false end
      | _ => true
      end
  end.

(** The attributes of a schema, itself included, whose default is of
    another type than the declared one. *)
Definition mistyped_defaults (k : string) (s : Schema) : list (list string) :=
  map fst
    (List.filter (fun ps => negb (default_of_declared_type (snd ps)))
            (attributes_under [] k s)).

Section YumProxy.

Context {W : Type}.

(** The attribute schemas declared in packages [schema/common] and
    [schema/repository]; parameters of the data source. *)
Variables DataSourceID DataSourceName DataSourceOnline DataSourceCleanup
  DataSourceNegativeCache DataSourceProxy DataSourceRoutingRule
  DataSourceStorage DataSourceYumSigning : Schema.

(** The read of the yum proxy repository resource, defined in another
    file of this package; a parameter of the data source. *)
Variable resourceYumProxyRepositoryRead : CallbackFunc W.

Definition dataSourceRepositoryYumProxyRead : CallbackFunc W := fun m =>
  name <- (v <- d_Get "name" ;; as_string v) ;;
  _ <- d_SetId name ;;
  resourceYumProxyRepositoryRead m.

Definition DataSourceRepositoryYumProxy : Resource W :=
  {| ResDescription :=
       "Use this data source to get an existing yum proxy repository.";
     Create := None;
     Read := Some dataSourceRepositoryYumProxyRead;
     Update := None;
     Delete := None;
     Exists := None;
     Importer := None;
     ResSchema :=
       [ ("id", DataSourceID);
         ("name", DataSourceName);
         ("online", DataSourceOnline);
         ("cleanup", DataSourceCleanup);
         ("http_client", DataSourceHTTPClient);
         ("negative_cache", DataSourceNegativeCache);
         ("proxy", DataSourceProxy);
         ("routing_rule", DataSourceRoutingRule);
         ("storage", DataSourceStorage);
         ("yum_signing", DataSourceYumSigning) ] |}.

End YumProxy.

End Repository.

(* ===================================================================== *)
(** ** Concrete inputs *)
(* ===================================================================== *)

Module Examples.

Import Sdk Client Exec.
Import blobstore security.

(** The configuration of the resource's usage example. *)
Definition example_attrs : gmap string value :=
  <["name" := VString "blobstore-file"]>
    (<["path" := VString "/nexus-data/blobstore-file"]>
       (<["soft_quota" :=
            VList [VMap (<["limit" := VInt 1024000000]>
                           (<["type" := VString "spaceRemainingQuota"]> ∅))]]>
          ∅)).

Definition example_data : ResourceData :=
  mkResourceData Nexus.resourceBlobstoreFileSchema example_attrs
                 "blobstore-file".

Definition example_env : Env unit := mkEnv example_data tt [].

(** A server that accepts every request and knows no blobstore. *)
Definition accepting_client : NexusClient unit :=
  {| BlobStore_File_Create := fun bs w => ((bs, None), w);
     BlobStore_File_Get := fun _ w => ((None, None), w);
     BlobStore_File_Update := fun _ bs w => ((bs, None), w);
     BlobStore_File_Delete := fun _ w => (None, w);
     BlobStore_List := fun w => (([], None), w);
     Security_UserTokens_Get :=
       fun w => ((Some (UserTokenConfiguration.mk true false), None), w);
     Security_UserTokens_Configure := fun _ w => (None, w) |}.

(** A server on which the blobstore asked for is gone ([Get] answers a
    [nil] blobstore and no error) while the default blobstore is still
    listed. *)
Definition default_blobstore : Generic.t :=
  Generic.mk "default" "File" 0 0 None 0.

Definition gone_client : NexusClient unit :=
  {| BlobStore_File_Create := fun bs w => ((bs, None), w);
     BlobStore_File_Get := fun _ w => ((None, None), w);
     BlobStore_File_Update := fun _ bs w => ((bs, None), w);
     BlobStore_File_Delete := fun _ w => (None, w);
     BlobStore_List := fun w => (([default_blobstore], None), w);
     Security_UserTokens_Get := fun w => ((None, None), w);
     Security_UserTokens_Configure := fun _ w => (None, w) |}.

(** Stand-ins for the callbacks and schemas declared elsewhere. *)
Definition no_read : CallbackFunc unit := fun _ => ret None.

Definition flatten_soft_quota (sq : SoftQuota.t) : value :=
  VList [VMap (<["limit" := VInt (SoftQuota.Limit sq)]>
                 (<["type" := VString (SoftQuota.Type_ sq)]> ∅))].

Definition computed_string : Schema :=
  schema_of [FType TypeString; FComputed true].

Definition named_string : Schema :=
  schema_of [FType TypeString; FRequired true].

Definition yum_data_source : Resource unit :=
  Repository.DataSourceRepositoryYumProxy
    computed_string named_string computed_string computed_string
    computed_string computed_string computed_string computed_string
    computed_string no_read.

Definition yum_env : Env unit :=
  mkEnv (mkResourceData (ResSchema yum_data_source)
                        (<["name" := VString "yum-proxy"]> ∅) EmptyString)
        tt [].

Definition user_token_env : Env unit :=
  mkEnv (mkResourceData
           (Security.resourceSecurityUserTokenSchema computed_string)
           (<["enabled" := VBool true]>
              (<["protect_content" := VBool false]> ∅))
           EmptyString)
        tt [].

End Examples.

(* ===================================================================== *)
(** ** Consistency checks on schema declarations *)
(* ===================================================================== *)

Module SchemaChecks.

Import Sdk.

Definition is_nil (v : value) : bool :=
  match v with VNil => true | _ => false end.

(** The flags of one attribute fit together: a type is declared; the
    attribute is required, optional or computed, and not required together
    with optional or computed; a required or computed-only attribute
    declares no default; a list declares its element and no default;
    [MaxItems] appears on lists only. *)
Definition flags_consistent (s : Schema) : bool :=
  negb (match Type_ s with TypeInvalid => true | _ => false end)
  && negb (Required s && Optional s)
  && negb (Required s && Computed s)
  && (Required s || Optional s || Computed s)
  && (negb (Required s) || is_nil (Default s))
  && (negb (Computed s && negb (Optional s)) || is_nil (Default s))
  && match Type_ s with
     | TypeList =>
         match Elem s with Some _ => true | None => false end
         && is_nil (Default s)
     | _ => (MaxItems s =? 0)%nat
     end.

(** An attribute the user cannot configure: computed, neither required nor
    optional, with no default, validation or item bound. *)
Definition computed_only (s : Schema) : bool :=
  Computed s && negb (Optional s) && negb (Required s)
  && is_nil (Default s)
  && match ValidateFunc s with None => true | Some _ => false end
  && (MaxItems s =? 0)%nat.

(** The paths and types of all attributes under a schema. *)
Definition signature (k : string) (s : Schema)
  : list (list string * ValueType) :=
  map (fun ps => (fst ps, Type_ (snd ps))) (attributes_under [] k s).

Definition all_under (p : Schema -> bool) (k : string) (s : Schema) : bool :=
  forallb (fun ps => p (snd ps)) (attributes_under [] k s).

End SchemaChecks.

(* ===================================================================== *)
(** ** Concrete inputs for the read paths *)
(* ===================================================================== *)

Module ReadExamples.

Import Sdk Client Exec.
Import blobstore security.

(** The blobstore of the usage example as the server reports it, without
    and with its soft quota. *)
Definition plain_file : File.t :=
  File.mk "blobstore-file" "/nexus-data/blobstore-file" None.

Definition quota_file : File.t :=
  File.mk "blobstore-file" "/nexus-data/blobstore-file"
          (Some (SoftQuota.mk 1024000000 "spaceRemainingQuota")).

(** A listing in which the blobstore's name occurs twice. *)
Definition listing : list Generic.t :=
  [ Generic.mk "blobstore-file" "File" 10 1 None 100;
    Examples.default_blobstore;
    Generic.mk "blobstore-file" "File" 20 2 None 200 ].

(** A server that reports the given file blobstore and the listing. *)
Definition serving_client (f : File.t) : NexusClient unit :=
  {| BlobStore_File_Create := fun bs w => ((bs, None), w);
     BlobStore_File_Get := fun _ w => ((Some f, None), w);
     BlobStore_File_Update := fun _ bs w => ((bs, None), w);
     BlobStore_File_Delete := fun _ w => (None, w);
     BlobStore_List := fun w => ((listing, None), w);
     Security_UserTokens_Get :=
       fun w => ((Some (UserTokenConfiguration.mk false true), None), w);
     Security_UserTokens_Configure := fun _ w => (None, w) |}.

(** Resource data of the file blobstore that holds the name only. *)
Definition bare_env : Env unit :=
  mkEnv (mkResourceData Nexus.resourceBlobstoreFileSchema
                        (<["name" := VString "blobstore-file"]> ∅)
                        "blobstore-file")
        tt [].

End ReadExamples.

(* ===================================================================== *)
(** ** Properties of the SDK embedding *)
(* ===================================================================== *)

Module SdkFacts.

Import Sdk Client Exec.

Lemma int64_of_int (z : Z) : GoInt.in_int z = true -> GoInt.int64 z = z.
Proof.
  unfold GoInt.in_int, GoInt.int64, GoInt.int_min, GoInt.int_max.
  intros H. apply andb_true_iff in H as [Hlo Hhi].
  apply Z.leb_le in Hlo, Hhi.
  rewrite Z.mod_small; lia.
Qed.

(** [IntAtLeast min] accepts exactly the integers from [min] upwards. *)
Lemma IntAtLeast_accepts (min v : Z) (k : string) :
  snd (validation.IntAtLeast min (VInt v) k) = [] <-> min <= v.
Proof.
  unfold validation.IntAtLeast.
  destruct (Z.ltb_spec v min); simpl; split; intros; (lia || congruence).
Qed.

Lemma well_typed_lookup (d : ResourceData) (k : string) (v : value) :
  well_typed d = true -> rd_attrs d !! k = Some v ->
  exists s, schema_lookup k (rd_schema d) = Some s /\ has_type s v = true.
Proof.
  unfold well_typed. intros Hall Hk.
  rewrite forallb_forall in Hall.
  assert (Hin : In (k, v) (map_to_list (rd_attrs d))).
  { apply list_elem_of_In. by apply elem_of_map_to_list. }
  apply Hall in Hin. simpl in Hin.
  destruct (schema_lookup k (rd_schema d)) as [s|]; [|discriminate].
  by exists s.
Qed.

Lemma has_type_zero (s : Schema) :
  Type_ s <> TypeInvalid -> has_type s (zero_value (Type_ s)) = true.
Proof.
  destruct s as [t d rq op cp se mx df vf el]; simpl.
  destruct t; simpl; intros Ht; try congruence; try reflexivity.
  destruct el, mx; reflexivity.
Qed.

(** What [Get] returns is typed by the attribute's schema. *)
Lemma Get_has_type (d : ResourceData) (k : string) (s : Schema) :
  well_typed d = true -> schema_lookup k (rd_schema d) = Some s ->
  Type_ s <> TypeInvalid -> has_type s (Get k d) = true.
Proof.
  intros Hwt Hs Ht. unfold Get. rewrite Hs.
  destruct (rd_attrs d !! k) as [v|] eqn:Hk.
  - destruct (well_typed_lookup d k v Hwt Hk) as (s' & Hs' & Hv).
    congruence.
  - by apply has_type_zero.
Qed.

Lemma is_zero_zero_value (t : ValueType) : is_zero t (zero_value t) = true.
Proof. destruct t; reflexivity. Qed.

(** [GetOk] returns the value of [Get], and reports whether it differs
    from the zero value of the declared type. *)
Lemma GetOk_Get (d : ResourceData) (k : string) (s : Schema) :
  schema_lookup k (rd_schema d) = Some s ->
  GetOk k d = (Get k d, negb (is_zero (Type_ s) (Get k d))).
Proof.
  intros Hs. unfold GetOk, Get. rewrite Hs.
  destruct (rd_attrs d !! k); [reflexivity|].
  by rewrite is_zero_zero_value.
Qed.

Lemma has_type_string (s : Schema) (v : value) :
  Type_ s = TypeString -> has_type s v = true -> exists x, v = VString x.
Proof.
  destruct s as [t d rq op cp se mx df vf el]; simpl. intros ->.
  destruct v; simpl; try discriminate. eauto.
Qed.

Lemma has_type_bool (s : Schema) (v : value) :
  Type_ s = TypeBool -> has_type s v = true -> exists b, v = VBool b.
Proof.
  destruct s as [t d rq op cp se mx df vf el]; simpl. intros ->.
  destruct v; simpl; try discriminate. eauto.
Qed.

Lemma Get_string (d : ResourceData) (k : string) (s : Schema) :
  well_typed d = true -> schema_lookup k (rd_schema d) = Some s ->
  Type_ s = TypeString -> exists x, Get k d = VString x.
Proof.
  intros Hwt Hs Ht. apply (has_type_string s); [done|].
  apply Get_has_type; [done..|]. rewrite Ht. discriminate.
Qed.

Lemma Get_bool (d : ResourceData) (k : string) (s : Schema) :
  well_typed d = true -> schema_lookup k (rd_schema d) = Some s ->
  Type_ s = TypeBool -> exists b, Get k d = VBool b.
Proof.
  intros Hwt Hs Ht. apply (has_type_bool s); [done|].
  apply Get_has_type; [done..|]. rewrite Ht. discriminate.
Qed.

End SdkFacts.

(** Unfolds the steps of a callback and reduces what has become known. *)
Ltac run :=
  repeat (progress
    (unfold Exec.bind, Exec.ret, Exec.panic, Exec.read_rd, Exec.update_rd,
       Exec.d_Get, Exec.d_GetOk, Exec.d_Id, Exec.d_SetId, Exec.d_Set,
       Exec.request, Exec.as_string, Exec.as_int, Exec.as_bool, Exec.as_list,
       Exec.as_map, Exec.index, Exec.map_index, Exec.deref, Exec.log_Print,
       Exec.File_Create, Exec.File_Get, Exec.File_Update, Exec.File_Delete,
       Exec.List_, Exec.UserTokens_Get, Exec.UserTokens_Configure;
     cbn [Exec.rd Exec.remote Exec.calls fst snd negb lookup list_lookup];
     cbv beta iota)).

(* ===================================================================== *)
(** ** The file blobstore resource: properties *)
(* ===================================================================== *)

Module NexusFacts.

Import Sdk Client Exec SdkFacts.
Import blobstore Nexus.

(** The [soft_quota] attribute holds no block, or one block with an
    [int] limit and a [string] type. *)
Lemma soft_quota_shape (d : ResourceData) :
  rd_schema d = resourceBlobstoreFileSchema -> well_typed d = true ->
  Get "soft_quota" d = VList []
  \/ exists (m : gmap string value) (z : Z) (t : string),
       Get "soft_quota" d = VList [VMap m]
       /\ m !! "limit" = Some (VInt z) /\ GoInt.in_int z = true
       /\ m !! "type" = Some (VString t).
Proof.
  intros Hs Hwt.
  pose proof (Get_has_type d "soft_quota" _ Hwt
                ltac:(rewrite Hs; reflexivity) ltac:(discriminate)) as Ht.
  destruct (Get "soft_quota" d) as [| | | |l|]; try discriminate Ht.
  cbn in Ht.
  destruct l as [|v [|v' l']]; [by left| |discriminate Ht].
  right. cbn in Ht.
  destruct v as [| | | | |m]; try discriminate Ht.
  destruct (m !! "limit") as [[| |z| | |]|] eqn:Hl; try discriminate Ht.
  destruct (m !! "type") as [[| | |t| |]|] eqn:Hty;
    rewrite ?andb_false_r in Ht; try discriminate Ht.
  exists m, z, t. rewrite !andb_true_r in Ht. done.
Qed.

(** The validation declared for [soft_quota.limit] accepts exactly the
    integers from 100000 upwards. *)
Lemma soft_quota_limit_accepts (v : Z) :
  exists s : Schema,
    attr_at ["soft_quota"; "limit"] resourceBlobstoreFileSchema = Some s
    /\ (accepts s "limit" (VInt v) = true <-> 100000 <= v).
Proof.
  eexists. split; [reflexivity|].
  unfold accepts. cbn [ValidateFunc schema_of fold_left set_field zeroSchema].
  rewrite <- IntAtLeast_accepts with (k := "limit").
  destruct (snd (validation.IntAtLeast 100000 (VInt v) "limit"));
    split; congruence.
Qed.

Section Callbacks.

Context {W : Type}.
Variable resourceBlobstoreRead : CallbackFunc W.
Variable flattenBlobstoreSoftQuota : SoftQuota.t -> value.

(** On resource data typed by the resource's schema the builder
    finishes and leaves the resource data, the remote world and the
    call log as they were. *)
Lemma getBlobstoreFileFromResourceData_total (e : Env W) :
  rd_schema (rd e) = resourceBlobstoreFileSchema ->
  well_typed (rd e) = true ->
  exists bs : File.t, getBlobstoreFileFromResourceData e = Done (bs, e).
Proof.
  intros Hs Hwt.
  destruct (Get_string (rd e) "name" _ Hwt ltac:(rewrite Hs; reflexivity)
              eq_refl) as [name Hname].
  destruct (Get_string (rd e) "path" _ Hwt ltac:(rewrite Hs; reflexivity)
              eq_refl) as [path Hpath].
  unfold getBlobstoreFileFromResourceData.
  run. rewrite Hname. run.
  destruct (GetOk "path" (rd e)) as [? [|]]; run; rewrite ?Hpath; run;
    (destruct (GetOk "soft_quota" (rd e)) as [? [|]] eqn:Hok; run;
     [|by eexists]);
    rewrite (GetOk_Get (rd e) "soft_quota" _
               ltac:(rewrite Hs; reflexivity)) in Hok;
    (destruct (soft_quota_shape (rd e) Hs Hwt)
      as [Hq|(m & z & t & Hq & Hl & Hz & Ht)];
     rewrite Hq in *; [discriminate Hok|]);
    run; rewrite Hl, Ht; run; by eexists.
Qed.

(** When [Get] answers a [nil] blobstore and no error, the outcome of
    the read depends on the blobstore list: a list error is returned
    with the id kept; an empty list leads to the id being cleared; a
    list with an entry makes the loop read [bs.Name] through the [nil]
    pointer. *)
Lemma resourceBlobstoreFileRead_nil_blobstore
    (m : NexusClient W) (e : Env W) (w1 : W) :
  BlobStore_File_Get m (Id (rd e)) (remote e) = ((None, None), w1) ->
  let log := calls e ++ [CallBlobStoreFileGet (Id (rd e))]
                     ++ [CallBlobStoreList] in
  match BlobStore_List m w1 with
  | ((_, Some err), w2) =>
      resourceBlobstoreFileRead flattenBlobstoreSoftQuota m e
      = Done (Some err, mkEnv (rd e) w2 log)
  | ((gs, None), w2) =>
      match gs with
      | [] =>
          resourceBlobstoreFileRead flattenBlobstoreSoftQuota m e
          = Done (None, mkEnv (SetId EmptyString (rd e)) w2 log)
      | _ :: _ =>
          resourceBlobstoreFileRead flattenBlobstoreSoftQuota m e
          = Panic "invalid memory address or nil pointer dereference"
      end
  end.
Proof.
  intros Hget log. subst log.
  unfold resourceBlobstoreFileRead. run. rewrite Hget. run.
  destruct (BlobStore_List m w1) as [[gs [err|]] w2]; run.
  - by rewrite <- app_assoc.
  - destruct gs as [|g gs]; cbn [range]; run.
    + by rewrite <- app_assoc.
    + reflexivity.
Qed.

(** C2: on resource data typed by the resource's schema,
    [getBlobstoreFileFromResourceData] returns a blobstore whose [Name]
    is the [name] attribute; whose [Path] is the [path] attribute when
    [GetOk] reports [path] as set and is empty otherwise; whose
    [SoftQuota] is [nil] exactly when [GetOk] reports [soft_quota] as
    not set; and whose [SoftQuota], when set, carries the [limit] and
    [type] of the single [soft_quota] block. *)
Theorem getBlobstoreFileFromResourceData_spec (e : Env W) :
  rd_schema (rd e) = resourceBlobstoreFileSchema ->
  well_typed (rd e) = true ->
  exists bs : File.t,
    getBlobstoreFileFromResourceData e = Done (bs, e)
    /\ Get "name" (rd e) = VString (File.Name bs)
    /\ (if snd (GetOk "path" (rd e))
        then Get "path" (rd e) = VString (File.Path bs)
        else File.Path bs = EmptyString)
    /\ (File.SoftQuota bs = None
        <-> snd (GetOk "soft_quota" (rd e)) = false)
    /\ (snd (GetOk "soft_quota" (rd e)) = true ->
        exists (block : gmap string value) (limit : Z) (type : string),
          Get "soft_quota" (rd e) = VList [VMap block]
          /\ block !! "limit" = Some (VInt limit)
          /\ block !! "type" = Some (VString type)
          /\ File.SoftQuota bs = Some (SoftQuota.mk limit type)).
Proof.
  intros Hs Hwt.
  destruct (Get_string (rd e) "name" _ Hwt ltac:(rewrite Hs; reflexivity)
              eq_refl) as [name Hname].
  destruct (Get_string (rd e) "path" _ Hwt ltac:(rewrite Hs; reflexivity)
              eq_refl) as [path Hpath].
  pose proof (GetOk_Get (rd e) "path" _ ltac:(rewrite Hs; reflexivity))
    as Hpok.
  pose proof (GetOk_Get (rd e) "soft_quota" _
                ltac:(rewrite Hs; reflexivity)) as Hqok.
  rewrite Hpath in Hpok.
  cbn [is_zero Type_ schema_of fold_left set_field zeroSchema] in Hpok.
  unfold getBlobstoreFileFromResourceData.
  run. rewrite Hname. run. rewrite Hpok. run.
  destruct (soft_quota_shape (rd e) Hs Hwt)
    as [Hq|(m & z & t & Hq & Hl & Hz & Ht)];
    rewrite Hq in Hqok; cbn in Hqok.
  - destruct (String.eqb_spec path EmptyString) as [->|Hne]; run;
      rewrite ?Hpath; run; rewrite Hqok; run;
      (eexists; split; [reflexivity|]); cbn; repeat split; done.
  - destruct (String.eqb_spec path EmptyString) as [->|Hne]; run;
      rewrite ?Hpath; run; rewrite Hqok; run; rewrite Hq; run;
      rewrite Hl, Ht; run; rewrite (int64_of_int z Hz);
      (eexists; split; [reflexivity|]); cbn; repeat split; try done;
      intros _; exists m, z, t; done.
Qed.

(** C3: [resourceBlobstoreFileCreate] sends exactly the blobstore built
    by [getBlobstoreFileFromResourceData] to [BlobStore.File.Create]
    (the one request it logs).  When the client answers an error,
    Create returns that error and the resource data, the id included,
    are as before.  When the client succeeds, the id and the [name]
    attribute are set to the blobstore's name, and Create continues as
    the read on the resource data so updated. *)
Theorem resourceBlobstoreFileCreate_spec (m : NexusClient W) (e : Env W) :
  rd_schema (rd e) = resourceBlobstoreFileSchema ->
  well_typed (rd e) = true ->
  exists bs : File.t,
    getBlobstoreFileFromResourceData e = Done (bs, e)
    /\ let r := BlobStore_File_Create m bs (remote e) in
       let log := calls e ++ [CallBlobStoreFileCreate bs] in
       match snd (fst r) with
       | Some err =>
           resourceBlobstoreFileCreate resourceBlobstoreRead m e
           = Done (Some err, mkEnv (rd e) (snd r) log)
       | None =>
           let name := File.Name (fst (fst r)) in
           let d' := mkResourceData
                       (rd_schema (rd e))
                       (<["name" := VString name]> (rd_attrs (rd e)))
                       name in
           Id d' = name
           /\ resourceBlobstoreFileCreate resourceBlobstoreRead m e
              = resourceBlobstoreRead m (mkEnv d' (snd r) log)
       end.
Proof.
  intros Hs Hwt.
  destruct (getBlobstoreFileFromResourceData_total e Hs Hwt)
    as (bs & Hrun).
  exists bs. split; [exact Hrun|].
  unfold resourceBlobstoreFileCreate. run. rewrite Hrun. run.
  destruct (BlobStore_File_Create m bs (remote e)) as [[bs' [err|]] w'];
    run; [reflexivity|].
  split; [reflexivity|].
  unfold Set_. cbn [SetId rd_schema rd_attrs rd_id]. rewrite Hs.
  reflexivity.
Qed.

(** C5: [resourceBlobstoreFileExists] asks the client for the blobstore
    with the resource id; it returns [true] exactly when the client
    returned a non-[nil] blobstore, together with the client's error
    as it came. *)
Theorem resourceBlobstoreFileExists_spec (m : NexusClient W) (e : Env W) :
  let r := BlobStore_File_Get m (Id (rd e)) (remote e) in
  exists b : bool,
    resourceBlobstoreFileExists m e
    = Done ((b, snd (fst r)),
            mkEnv (rd e) (snd r)
                  (calls e ++ [CallBlobStoreFileGet (Id (rd e))]))
    /\ (b = true <-> fst (fst r) <> None).
Proof.
  intros r. subst r. unfold resourceBlobstoreFileExists. run.
  destruct (BlobStore_File_Get m (Id (rd e)) (remote e))
    as [[[bs|] err] w']; run; eexists; (split; [reflexivity|]);
    split; congruence.
Qed.

(** C6: [resourceBlobstoreFileDelete] asks the client to delete the
    blobstore with the resource id.  When the client answers an error,
    Delete returns that error and the resource data, the id included,
    are as before; when the client succeeds, the id is cleared and
    Delete returns [nil]. *)
Theorem resourceBlobstoreFileDelete_spec (m : NexusClient W) (e : Env W) :
  let r := BlobStore_File_Delete m (Id (rd e)) (remote e) in
  let log := calls e ++ [CallBlobStoreFileDelete (Id (rd e))] in
  match fst r with
  | Some err =>
      resourceBlobstoreFileDelete m e
      = Done (Some err, mkEnv (rd e) (snd r) log)
  | None =>
      resourceBlobstoreFileDelete m e
      = Done (None, mkEnv (SetId EmptyString (rd e)) (snd r) log)
  end.
Proof.
  intros r log. subst r log. unfold resourceBlobstoreFileDelete. run.
  destruct (BlobStore_File_Delete m (Id (rd e)) (remote e))
    as [[err|] w']; run; reflexivity.
Qed.

End Callbacks.

(** C2 at the configuration of the usage example. *)
Lemma getBlobstoreFileFromResourceData_example :
  exists bs : File.t,
    getBlobstoreFileFromResourceData Examples.example_env
    = Done (bs, Examples.example_env)
    /\ Get "name" Examples.example_data = VString (File.Name bs)
    /\ (if snd (GetOk "path" Examples.example_data)
        then Get "path" Examples.example_data = VString (File.Path bs)
        else File.Path bs = EmptyString)
    /\ (File.SoftQuota bs = None
        <-> snd (GetOk "soft_quota" Examples.example_data) = false)
    /\ (snd (GetOk "soft_quota" Examples.example_data) = true ->
        exists (block : gmap string value) (limit : Z) (type : string),
          Get "soft_quota" Examples.example_data = VList [VMap block]
          /\ block !! "limit" = Some (VInt limit)
          /\ block !! "type" = Some (VString type)
          /\ File.SoftQuota bs = Some (SoftQuota.mk limit type)).
Proof.
  apply (getBlobstoreFileFromResourceData_spec Examples.example_env);
    [reflexivity | vm_compute; reflexivity].
Defined.

(** C3 at the configuration of the usage example, against a server that
    accepts the request. *)
Lemma resourceBlobstoreFileCreate_example :
  exists bs : File.t,
    getBlobstoreFileFromResourceData Examples.example_env
    = Done (bs, Examples.example_env)
    /\ let r := BlobStore_File_Create Examples.accepting_client bs tt in
       let log := [CallBlobStoreFileCreate bs] in
       match snd (fst r) with
       | Some err =>
           resourceBlobstoreFileCreate Examples.no_read
             Examples.accepting_client Examples.example_env
           = Done (Some err, mkEnv Examples.example_data (snd r) log)
       | None =>
           let name := File.Name (fst (fst r)) in
           let d' := mkResourceData
                       resourceBlobstoreFileSchema
                       (<["name" := VString name]> Examples.example_attrs)
                       name in
           Id d' = name
           /\ resourceBlobstoreFileCreate Examples.no_read
                Examples.accepting_client Examples.example_env
              = Examples.no_read Examples.accepting_client
                  (mkEnv d' (snd r) log)
       end.
Proof.
  apply (resourceBlobstoreFileCreate_spec Examples.no_read
           Examples.accepting_client Examples.example_env);
    [reflexivity | vm_compute; reflexivity].
Defined.

(** C1: the description of [soft_quota.limit] states a minimum of
    1000000, yet the declared validation accepts 100000, which is
    smaller. *)
Theorem soft_quota_limit_accepts_below_documented_minimum :
  exists s : Schema,
    attr_at ["soft_quota"; "limit"] resourceBlobstoreFileSchema = Some s
    /\ Description s = "The limit in Bytes. Minimum value is 1000000"
    /\ 100000 < documented_limit_minimum
    /\ accepts s "limit" (VInt 100000) = true.
Proof. eexists. repeat split. Qed.

(** C4: with a [nil] blobstore and no error from [Get], and a blobstore
    list that still has an entry, [resourceBlobstoreFileRead] reads the
    name through the [nil] pointer and panics; the id is not cleared and
    nothing is returned. *)
Theorem resourceBlobstoreFileRead_nil_blobstore_panics :
  BlobStore_File_Get Examples.gone_client (Id Examples.example_data) tt
  = ((None, None), tt)
  /\ resourceBlobstoreFileRead Examples.flatten_soft_quota
       Examples.gone_client Examples.example_env
     = Panic "invalid memory address or nil pointer dereference".
Proof. split; reflexivity. Qed.

End NexusFacts.

(* ===================================================================== *)
(** ** The user-token resource: properties *)
(* ===================================================================== *)

Module SecurityFacts.

Import Sdk Client Exec SdkFacts.
Import security Security.

Section Callbacks.

Context {W : Type}.
Variable ResourceID : Schema.

(** Both attributes are booleans on resource data typed by the
    resource's schema. *)
Lemma user_token_attributes (d : ResourceData) :
  rd_schema d = resourceSecurityUserTokenSchema ResourceID ->
  well_typed d = true ->
  exists enabled protect : bool,
    Get "enabled" d = VBool enabled
    /\ Get "protect_content" d = VBool protect.
Proof.
  intros Hs Hwt.
  destruct (Get_bool d "enabled" _ Hwt ltac:(rewrite Hs; reflexivity)
              eq_refl) as [en Hen].
  destruct (Get_bool d "protect_content" _ Hwt
              ltac:(rewrite Hs; reflexivity) eq_refl) as [pc Hpc].
  by exists en, pc.
Qed.

(** C8: the resource declares one and the same function as Create and
    as Update, so the two agree on every input.  On resource data
    typed by the schema that function builds the configuration from
    [enabled] and [protect_content] and sends it with
    [Security.UserTokens.Configure]; an error of the client is
    returned as it is; on success the remote configuration is read
    again and written to the state, the id being set to
    ["golbalUserTokenConfiguration"]. *)
Theorem resourceSecurityUserToken_create_is_update
    (m : NexusClient W) (e : Env W) :
  rd_schema (rd e) = resourceSecurityUserTokenSchema ResourceID ->
  well_typed (rd e) = true ->
  (forall create update : CallbackFunc W,
      Create (ResourceSecurityUserToken ResourceID) = Some create ->
      Update (ResourceSecurityUserToken ResourceID) = Some update ->
      update = resourceSecurityUserTokenUpdate
      /\ forall (m' : NexusClient W) (e' : Env W),
           create m' e' = update m' e')
  /\ exists enabled protect : bool,
       Get "enabled" (rd e) = VBool enabled
       /\ Get "protect_content" (rd e) = VBool protect
       /\ let token := UserTokenConfiguration.mk enabled protect in
          let c := Security_UserTokens_Configure m token (remote e) in
          let log := calls e ++ [CallSecurityUserTokensConfigure token] in
          match fst c with
          | Some err =>
              resourceSecurityUserTokenUpdate m e
              = Done (Some err, mkEnv (rd e) (snd c) log)
          | None =>
              let g := Security_UserTokens_Get m (snd c) in
              let log' := log ++ [CallSecurityUserTokensGet] in
              resourceSecurityUserTokenUpdate m e
              = resourceSecurityUserTokenRead m (mkEnv (rd e) (snd c) log)
              /\ match fst g with
                 | (_, Some err) =>
                     resourceSecurityUserTokenUpdate m e
                     = Done (Some err, mkEnv (rd e) (snd g) log')
                 | (Some t, None) =>
                     resourceSecurityUserTokenUpdate m e
                     = Done
                         (None,
                          mkEnv
                            (mkResourceData
                               (rd_schema (rd e))
                               (<["protect_content" :=
                                    VBool (UserTokenConfiguration.ProtectContent t)]>
                                  (<["enabled" :=
                                       VBool (UserTokenConfiguration.Enabled t)]>
                                     (rd_attrs (rd e))))
                               "golbalUserTokenConfiguration")
                            (snd g) log')
                 | (None, None) =>
                     resourceSecurityUserTokenUpdate m e
                     = Panic
                         "invalid memory address or nil pointer dereference"
                 end
          end.
Proof.
  intros Hs Hwt. split.
  - intros create update Hc Hu. cbn in Hc, Hu.
    injection Hc as <-. injection Hu as <-. by split.
  - destruct (user_token_attributes (rd e) Hs Hwt)
      as (en & pc & Hen & Hpc).
    exists en, pc. split; [exact Hen|]. split; [exact Hpc|].
    unfold resourceSecurityUserTokenUpdate, resourceSecurityUserTokenRead,
      getSecurityUserTokenFromResourceData,
      setSecurityUserTokenToResourceData.
    run. rewrite Hen. run. rewrite Hpc. run.
    destruct (Security_UserTokens_Configure m _ (remote e))
      as [[err|] w1]; run; [reflexivity|].
    split; [reflexivity|].
    destruct (Security_UserTokens_Get m w1) as [[[t|] [err|]] w2];
      run; try reflexivity.
    unfold Set_. cbn [SetId rd_schema rd_attrs rd_id]. rewrite Hs.
    reflexivity.
Qed.

(** C10: the resource declares [resourceSecurityUserTokenDelete] as its
    Delete; on every input it returns [nil] and leaves the resource
    data, the remote world and the log of client calls as they were. *)
Theorem resourceSecurityUserTokenDelete_spec
    (m : NexusClient W) (e : Env W) :
  Delete (ResourceSecurityUserToken (W := W) ResourceID)
  = Some resourceSecurityUserTokenDelete
  /\ resourceSecurityUserTokenDelete m e = Done (None, e).
Proof. split; reflexivity. Qed.

End Callbacks.

(** C8 on a configuration with user tokens enabled, against a server
    that accepts the request. *)
Lemma resourceSecurityUserToken_example :
  Get "enabled" (rd Examples.user_token_env) = VBool true
  /\ resourceSecurityUserTokenUpdate Examples.accepting_client
       Examples.user_token_env
     = Done
         (None,
          mkEnv
            (mkResourceData
               (resourceSecurityUserTokenSchema Examples.computed_string)
               (<["protect_content" := VBool false]>
                  (<["enabled" := VBool true]>
                     (rd_attrs (rd Examples.user_token_env))))
               "golbalUserTokenConfiguration")
            tt
            [CallSecurityUserTokensConfigure
               (UserTokenConfiguration.mk true false);
             CallSecurityUserTokensGet]).
Proof.
  destruct (resourceSecurityUserToken_create_is_update
              Examples.computed_string Examples.accepting_client
              Examples.user_token_env eq_refl)
    as (_ & en & pc & Hen & Hpc & Hrun);
    [vm_compute; reflexivity|].
  injection Hen as <-. injection Hpc as <-.
  split; [reflexivity|]. exact (proj2 Hrun).
Defined.

End SecurityFacts.

(* ===================================================================== *)
(** ** HTTP client schema and yum proxy data source: properties *)
(* ===================================================================== *)

Module RepositoryFacts.

Import Sdk Client Exec SdkFacts.
Import Repository.

(** A callback that returns at once sends no request at all. *)
Lemma no_read_reads_only : reads_only Examples.no_read.
Proof.
  intros m e r e' H. injection H as _ <-.
  exists []. split; [by rewrite app_nil_r | reflexivity].
Qed.

Section YumProxy.

Context {W : Type}.
Variables DataSourceID DataSourceName DataSourceOnline DataSourceCleanup
  DataSourceNegativeCache DataSourceProxy DataSourceRoutingRule
  DataSourceStorage DataSourceYumSigning : Schema.
Variable resourceYumProxyRepositoryRead : CallbackFunc W.

#[local] Abbreviation data_source :=
  (DataSourceRepositoryYumProxy
     DataSourceID DataSourceName DataSourceOnline DataSourceCleanup
     DataSourceNegativeCache DataSourceProxy DataSourceRoutingRule
     DataSourceStorage DataSourceYumSigning
     resourceYumProxyRepositoryRead).

(** C7: the yum proxy data source declares a Read and no Create,
    Update, Delete or Exists.  With [name] declared as a string, its
    Read sets the id to the value of [name] and then is the proxy
    repository read, started on the same remote world and the same
    log of client calls: it sends no request of its own.  Hence, the
    proxy repository read sending only requests that leave the remote
    system as it is, so does the data source's Read. *)
Theorem dataSourceRepositoryYumProxy_spec
    (m : NexusClient W) (e : Env W) :
  Type_ DataSourceName = TypeString ->
  rd_schema (rd e) = ResSchema data_source ->
  well_typed (rd e) = true ->
  reads_only resourceYumProxyRepositoryRead ->
  (Create data_source = None /\ Update data_source = None
   /\ Delete data_source = None /\ Exists data_source = None
   /\ Read data_source
      = Some (dataSourceRepositoryYumProxyRead
                resourceYumProxyRepositoryRead))
  /\ (exists name : string,
        Get "name" (rd e) = VString name
        /\ dataSourceRepositoryYumProxyRead
             resourceYumProxyRepositoryRead m e
           = resourceYumProxyRepositoryRead m
               (mkEnv (SetId name (rd e)) (remote e) (calls e)))
  /\ (forall (r : option error) (e' : Env W),
        dataSourceRepositoryYumProxyRead
          resourceYumProxyRepositoryRead m e = Done (r, e') ->
        exists l : list Call,
          calls e' = calls e ++ l
          /\ forallb (fun c => negb (is_write c)) l = true).
Proof.
  intros Hty Hs Hwt Hread.
  split; [by repeat split|].
  destruct (Get_string (rd e) "name" DataSourceName Hwt
              ltac:(rewrite Hs; reflexivity) Hty) as [name Hname].
  assert (Hrun :
            dataSourceRepositoryYumProxyRead
              resourceYumProxyRepositoryRead m e
            = resourceYumProxyRepositoryRead m
                (mkEnv (SetId name (rd e)) (remote e) (calls e))).
  { unfold dataSourceRepositoryYumProxyRead. run. rewrite Hname. run.
    reflexivity. }
  split; [by exists name|].
  intros r e' Hdone. rewrite Hrun in Hdone.
  exact (Hread m _ r e' Hdone).
Qed.

End YumProxy.

(** C7 on a lookup of the repository ["yum-proxy"]. *)
Lemma dataSourceRepositoryYumProxy_example :
  exists name : string,
    Get "name" (rd Examples.yum_env) = VString name
    /\ dataSourceRepositoryYumProxyRead Examples.no_read
         Examples.accepting_client Examples.yum_env
       = Examples.no_read Examples.accepting_client
           (mkEnv (SetId name (rd Examples.yum_env)) tt []).
Proof.
  apply (dataSourceRepositoryYumProxy_spec
           Examples.computed_string Examples.named_string
           Examples.computed_string Examples.computed_string
           Examples.computed_string Examples.computed_string
           Examples.computed_string Examples.computed_string
           Examples.computed_string Examples.no_read
           Examples.accepting_client Examples.yum_env);
    [reflexivity | reflexivity | vm_compute; reflexivity
    | exact no_read_reads_only].
Defined.

(** C9: in [ResourceHTTPClient] one attribute that declares a default
    declares it of another type than its own: [user_agent_suffix] of the
    [connection] block is a [TypeString] with the boolean default
    [false].  It is the only one. *)
Theorem ResourceHTTPClient_user_agent_suffix_default :
  (exists s : Schema,
      attr_at ["http_client"; "connection"; "user_agent_suffix"]
              [("http_client", ResourceHTTPClient)] = Some s
      /\ Type_ s = TypeString
      /\ Default s = VBool false
      /\ default_of_declared_type s = false)
  /\ mistyped_defaults "http_client" ResourceHTTPClient
     = [["http_client"; "connection"; "user_agent_suffix"]].
Proof. split; [eexists; repeat split | reflexivity]. Qed.

End RepositoryFacts.

(* ===================================================================== *)
(** ** Resource data: storing and reading back *)
(* ===================================================================== *)

Module StateFacts.

Import Sdk Client Exec SdkFacts.

Lemma Get_SetId (k i : string) (d : ResourceData) :
  Get k (SetId i d) = Get k d.
Proof. reflexivity. Qed.

Lemma GetOk_SetId (k i : string) (d : ResourceData) :
  GetOk k (SetId i d) = GetOk k d.
Proof. reflexivity. Qed.

(** [Set] keeps the schema and the id, whether it succeeds or not. *)
Lemma Set_schema (k : string) (v : value) (d : ResourceData) :
  rd_schema (fst (Set_ k v d)) = rd_schema d.
Proof.
  unfold Set_. destruct (schema_lookup k (rd_schema d)) as [s|]; [|done].
  by destruct (shape_matches (Type_ s) v).
Qed.

Lemma Set_id (k : string) (v : value) (d : ResourceData) :
  rd_id (fst (Set_ k v d)) = rd_id d.
Proof.
  unfold Set_. destruct (schema_lookup k (rd_schema d)) as [s|]; [|done].
  by destruct (shape_matches (Type_ s) v).
Qed.

(** [Set] succeeds on a declared attribute and a value of its type. *)
Lemma Set_ok (k : string) (v : value) (d : ResourceData) (s : Schema) :
  schema_lookup k (rd_schema d) = Some s ->
  shape_matches (Type_ s) v = true ->
  Set_ k v d
  = (mkResourceData (rd_schema d) (<[k := v]> (rd_attrs d)) (rd_id d), None).
Proof. intros Hs Hv. unfold Set_. by rewrite Hs, Hv. Qed.

(** Reading back what was stored, and what was not touched. *)
Lemma Get_insert_eq (k : string) (v : value) (sm : SchemaMap)
    (a : gmap string value) (i : string) (s : Schema) :
  schema_lookup k sm = Some s ->
  Get k (mkResourceData sm (<[k := v]> a) i) = v.
Proof.
  intros Hs. unfold Get. cbn [rd_schema rd_attrs]. rewrite Hs.
  by rewrite lookup_insert_eq.
Qed.

Lemma Get_insert_ne (k k' : string) (v : value) (sm : SchemaMap)
    (a : gmap string value) (i : string) :
  k <> k' ->
  Get k' (mkResourceData sm (<[k := v]> a) i) = Get k' (mkResourceData sm a i).
Proof.
  intros Hne. unfold Get. cbn [rd_schema rd_attrs].
  by rewrite lookup_insert_ne.
Qed.

Lemma GetOk_insert_ne (k k' : string) (v : value) (sm : SchemaMap)
    (a : gmap string value) (i : string) :
  k <> k' ->
  GetOk k' (mkResourceData sm (<[k := v]> a) i)
  = GetOk k' (mkResourceData sm a i).
Proof.
  intros Hne. unfold GetOk. cbn [rd_schema rd_attrs].
  by rewrite lookup_insert_ne.
Qed.



(** Typing of the state, attribute by attribute. *)
Lemma well_typed_spec (d : ResourceData) :
  well_typed d = true
  <-> forall (k : string) (v : value),
        rd_attrs d !! k = Some v ->
        exists s, schema_lookup k (rd_schema d) = Some s
                  /\ has_type s v = true.
Proof.
  split; [intros H k v; by apply well_typed_lookup|].
  intros H. unfold well_typed. apply forallb_forall. intros [k v] Hin.
  apply list_elem_of_In, elem_of_map_to_list in Hin.
  destruct (H k v Hin) as (s & Hs & Hv). cbn. by rewrite Hs.
Qed.

(** Storing a typed value under a declared attribute keeps the state
    typed. *)
Lemma well_typed_insert (k : string) (v : value) (sm : SchemaMap)
    (a : gmap string value) (i j : string) (s : Schema) :
  schema_lookup k sm = Some s -> has_type s v = true ->
  well_typed (mkResourceData sm a j) = true ->
  well_typed (mkResourceData sm (<[k := v]> a) i) = true.
Proof.
  intros Hs Hv Hwt. apply well_typed_spec. cbn [rd_schema rd_attrs].
  intros k' v' Hk'. destruct (decide (k = k')) as [<-|Hne].
  - rewrite lookup_insert_eq in Hk'. injection Hk' as <-. eauto.
  - rewrite lookup_insert_ne in Hk' by done.
    by apply (well_typed_lookup (mkResourceData sm a j)).
Qed.

End StateFacts.

(* ===================================================================== *)
(** ** The file blobstore resource: update and read *)
(* ===================================================================== *)

(** [run] on a hypothesis. *)
Ltac run_in H :=
  repeat (progress
    (unfold Exec.bind, Exec.ret, Exec.panic, Exec.read_rd, Exec.update_rd,
       Exec.d_Get, Exec.d_GetOk, Exec.d_Id, Exec.d_SetId, Exec.d_Set,
       Exec.request, Exec.as_string, Exec.as_int, Exec.as_bool, Exec.as_list,
       Exec.as_map, Exec.index, Exec.map_index, Exec.deref, Exec.log_Print,
       Exec.File_Create, Exec.File_Get, Exec.File_Update, Exec.File_Delete,
       Exec.List_, Exec.UserTokens_Get, Exec.UserTokens_Configure in H;
     cbn [Exec.rd Exec.remote Exec.calls fst snd negb lookup list_lookup] in H;
     cbv beta iota in H)).

Module NexusReadFacts.

Import Sdk Client Exec SdkFacts StateFacts.
Import blobstore Nexus.

Section Callbacks.

Context {W : Type}.
Variable flattenBlobstoreSoftQuota : SoftQuota.t -> value.

(** The loop over the listing, for a blobstore that is there: it ends with
    the last entry that carries the blobstore's name, or with the value it
    started from when no entry does. *)
Lemma listing_loop (b : File.t) (gs : list Generic.t) (acc : Generic.t)
    (e : Env W) :
  exists g : Generic.t,
    range gs
      (fun info generic =>
         b' <- deref (Some b) ;;
         ret (if String.eqb (Generic.Name generic) (File.Name b')
              then generic else info))
      acc e
    = Done (g, e)
    /\ ((g = acc
         /\ Forall (fun x => Generic.Name x <> File.Name b) gs)
        \/ exists pre post : list Generic.t,
             gs = pre ++ g :: post
             /\ Generic.Name g = File.Name b
             /\ Forall (fun x => Generic.Name x <> File.Name b) post).
Proof.
  revert acc. induction gs as [|x rest IH]; intros acc.
  - exists acc. split; [reflexivity|]. left. by split.
  - cbn [range]. run.
    destruct (String.eqb_spec (Generic.Name x) (File.Name b)) as [Heq|Hne].
    + destruct (IH x) as (g & Hrun & [[-> Hall]|(pre & post & -> & Hn & Hall)]).
      * exists x. split; [exact Hrun|]. right. by exists [], rest.
      * exists g. split; [exact Hrun|]. right. by exists (x :: pre), post.
    + destruct (IH acc)
        as (g & Hrun & [[-> Hall]|(pre & post & -> & Hn & Hall)]).
      * exists acc. split; [exact Hrun|]. left. split; [done|].
        by constructor.
      * exists g. split; [exact Hrun|]. right. by exists (x :: pre), post.
Qed.


(** The run of the read when the server reports the blobstore and the
    listing succeeds: the five attributes are stored, then the soft quota
    if there is one; a flattened soft quota that is no list is refused
    by [Set] and the read fails with the state already updated. *)
Lemma resourceBlobstoreFileRead_found
    (m : NexusClient W) (e : Env W) (b : File.t) (w1 w2 : W)
    (gs : list Generic.t) :
  rd_schema (rd e) = resourceBlobstoreFileSchema ->
  BlobStore_File_Get m (Id (rd e)) (remote e) = ((Some b, None), w1) ->
  BlobStore_List m w1 = ((gs, None), w2) ->
  exists g : Generic.t,
    ((g = Generic.zero
      /\ Forall (fun x => Generic.Name x <> File.Name b) gs)
     \/ exists pre post : list Generic.t,
          gs = pre ++ g :: post
          /\ Generic.Name g = File.Name b
          /\ Forall (fun x => Generic.Name x <> File.Name b) post)
    /\ let stored :=
         <["total_size_in_bytes" := VInt (Generic.TotalSizeInBytes g)]>
           (<["path" := VString (File.Path b)]>
              (<["name" := VString (File.Name b)]>
                 (<["blob_count" := VInt (Generic.BlobCount g)]>
                    (<["available_space_in_bytes" :=
                         VInt (Generic.AvailableSpaceInBytes g)]>
                       (rd_attrs (rd e)))))) in
       let log := calls e ++ [CallBlobStoreFileGet (Id (rd e));
                              CallBlobStoreList] in
       let data := fun a => mkResourceData resourceBlobstoreFileSchema a
                                           (rd_id (rd e)) in
       resourceBlobstoreFileRead flattenBlobstoreSoftQuota m e
       = match File.SoftQuota b with
         | None => Done (None, mkEnv (data stored) w2 log)
         | Some sq =>
             if shape_matches TypeList (flattenBlobstoreSoftQuota sq)
             then Done (None,
                        mkEnv (data (<["soft_quota" :=
                                         flattenBlobstoreSoftQuota sq]> stored))
                              w2 log)
             else Done (Some ("error reading soft quota: "
                              +:+ "soft_quota: value of the wrong type"),
                        mkEnv (data stored) w2 log)
         end.
Proof.
  intros Hs Hget Hlist.
  destruct (listing_loop b gs Generic.zero
              (mkEnv (rd e) w2
                     ((calls e ++ [CallBlobStoreFileGet (Id (rd e))])
                        ++ [CallBlobStoreList])))
    as (g & Hloop & Hg).
  exists g. split; [exact Hg|].
  run_in Hloop.
  unfold resourceBlobstoreFileRead. run. rewrite Hget. run.
  rewrite Hlist. run. rewrite Hloop. run.
  cbn [set_all].
  repeat (run; unfold Set_; cbn [rd_schema rd_attrs rd_id]; rewrite ?Hs;
          cbn [schema_lookup resourceBlobstoreFileSchema String.eqb Ascii.eqb
               Bool.eqb shape_matches Type_ schema_of fold_left set_field
               zeroSchema]).
  rewrite <- !app_assoc. cbn [app].
  destruct (File.SoftQuota b) as [sq|]; [|reflexivity].
  run. unfold Set_; cbn [rd_schema rd_attrs rd_id].
  cbn [schema_lookup resourceBlobstoreFileSchema String.eqb Ascii.eqb
       Bool.eqb Type_ schema_of fold_left set_field zeroSchema].
  destruct (flattenBlobstoreSoftQuota sq); run; reflexivity.
Qed.

(** X1: on resource data typed by the resource's schema,
    [resourceBlobstoreFileUpdate] sends one request, the update of the
    blobstore named by the resource id with the blobstore built from the
    attributes, and returns what the client answered.  The resource data
    stay as they were whether the client fails or not: Update does not
    refresh the state. *)
Theorem resourceBlobstoreFileUpdate_spec (m : NexusClient W) (e : Env W) :
  rd_schema (rd e) = resourceBlobstoreFileSchema ->
  well_typed (rd e) = true ->
  exists bs : File.t,
    getBlobstoreFileFromResourceData e = Done (bs, e)
    /\ let r := BlobStore_File_Update m (Id (rd e)) bs (remote e) in
       resourceBlobstoreFileUpdate m e
       = Done (snd (fst r),
               mkEnv (rd e) (snd r)
                     (calls e ++ [CallBlobStoreFileUpdate (Id (rd e)) bs])).
Proof.
  intros Hs Hwt.
  destruct (NexusFacts.getBlobstoreFileFromResourceData_total e Hs Hwt)
    as (bs & Hrun).
  exists bs. split; [exact Hrun|].
  unfold resourceBlobstoreFileUpdate. run. rewrite Hrun. run.
  destruct (BlobStore_File_Update m (Id (rd e)) bs (remote e))
    as [[bs' [err|]] w']; run; reflexivity.
Qed.

(** X2: an error of [BlobStore.File.Get] ends the read at once: the error
    is returned, the blobstores are not listed and the resource data are
    untouched.  An error of [BlobStore.List] is returned likewise, after
    the two requests, with the resource data untouched. *)
Theorem resourceBlobstoreFileRead_errors (m : NexusClient W) (e : Env W) :
  let r := BlobStore_File_Get m (Id (rd e)) (remote e) in
  let log := calls e ++ [CallBlobStoreFileGet (Id (rd e))] in
  match snd (fst r) with
  | Some err =>
      resourceBlobstoreFileRead flattenBlobstoreSoftQuota m e
      = Done (Some err, mkEnv (rd e) (snd r) log)
  | None =>
      let l := BlobStore_List m (snd r) in
      match snd (fst l) with
      | Some err =>
          resourceBlobstoreFileRead flattenBlobstoreSoftQuota m e
          = Done (Some err,
                  mkEnv (rd e) (snd l) (log ++ [CallBlobStoreList]))
      | None => True
      end
  end.
Proof.
  intros r log. subst r log. unfold resourceBlobstoreFileRead. run.
  destruct (BlobStore_File_Get m (Id (rd e)) (remote e))
    as [[bs [err|]] w1]; run; [reflexivity|].
  destruct (BlobStore_List m w1) as [[gs [err|]] w2]; run; done.
Qed.


Ltac stored :=
  repeat (rewrite Get_insert_ne by discriminate);
  (erewrite Get_insert_eq by reflexivity); reflexivity.

(** What the state holds after such a read. *)
Lemma resourceBlobstoreFileRead_state
    (m : NexusClient W) (e : Env W) (b : File.t) (w1 w2 : W)
    (gs : list Generic.t) :
  rd_schema (rd e) = resourceBlobstoreFileSchema ->
  BlobStore_File_Get m (Id (rd e)) (remote e) = ((Some b, None), w1) ->
  BlobStore_List m w1 = ((gs, None), w2) ->
  exists (g : Generic.t) (r : option error) (e' : Env W),
    ((g = Generic.zero
      /\ Forall (fun x => Generic.Name x <> File.Name b) gs)
     \/ exists pre post : list Generic.t,
          gs = pre ++ g :: post
          /\ Generic.Name g = File.Name b
          /\ Forall (fun x => Generic.Name x <> File.Name b) post)
    /\ resourceBlobstoreFileRead flattenBlobstoreSoftQuota m e = Done (r, e')
    /\ (Id (rd e') = Id (rd e)
        /\ rd_schema (rd e') = resourceBlobstoreFileSchema
        /\ remote e' = w2
        /\ calls e' = calls e ++ [CallBlobStoreFileGet (Id (rd e));
                                  CallBlobStoreList])
    /\ (Get "name" (rd e') = VString (File.Name b)
        /\ Get "path" (rd e') = VString (File.Path b))
    /\ (Get "available_space_in_bytes" (rd e')
        = VInt (Generic.AvailableSpaceInBytes g)
        /\ Get "blob_count" (rd e') = VInt (Generic.BlobCount g)
        /\ Get "total_size_in_bytes" (rd e')
           = VInt (Generic.TotalSizeInBytes g))
    /\ (File.SoftQuota b = None ->
        r = None /\ GetOk "soft_quota" (rd e') = GetOk "soft_quota" (rd e)).
Proof.
  intros Hs Hget Hlist.
  destruct (resourceBlobstoreFileRead_found m e b w1 w2 gs Hs Hget Hlist)
    as (g & Hg & Hrun).
  cbv zeta in Hrun. exists g.
  destruct (File.SoftQuota b) as [sq|] eqn:Hsq;
    [destruct (shape_matches TypeList (flattenBlobstoreSoftQuota sq))|];
    (eexists _, _; split; [exact Hg|]; split; [exact Hrun|]);
    cbn [rd remote calls rd_schema rd_id Id];
    (split; [done|]); (split; [split; stored|]);
    (split; [repeat split; stored|]); try done.
  intros _. split; [done|].
  destruct e as [[sm a i] w c]. cbn in Hs. subst sm. cbn [rd rd_attrs rd_id].
  by rewrite !GetOk_insert_ne by discriminate.
Qed.

(** X4: when the server reports the blobstore, the read stores its name
    and path in the state and keeps the resource id; it has then sent
    exactly the two requests [Get] and [List]. *)
Theorem resourceBlobstoreFileRead_stores_blobstore
    (m : NexusClient W) (e : Env W) (b : File.t) (w1 w2 : W)
    (gs : list Generic.t) :
  rd_schema (rd e) = resourceBlobstoreFileSchema ->
  BlobStore_File_Get m (Id (rd e)) (remote e) = ((Some b, None), w1) ->
  BlobStore_List m w1 = ((gs, None), w2) ->
  exists (r : option error) (e' : Env W),
    resourceBlobstoreFileRead flattenBlobstoreSoftQuota m e = Done (r, e')
    /\ Id (rd e') = Id (rd e)
    /\ Get "name" (rd e') = VString (File.Name b)
    /\ Get "path" (rd e') = VString (File.Path b)
    /\ remote e' = w2
    /\ calls e' = calls e ++ [CallBlobStoreFileGet (Id (rd e));
                              CallBlobStoreList].
Proof.
  intros Hs Hget Hlist.
  destruct (resourceBlobstoreFileRead_state m e b w1 w2 gs Hs Hget Hlist)
    as (g & r & e' & _ & Hrun & (Hid & _ & Hw & Hc) & (Hn & Hp) & _).
  by exists r, e'.
Qed.

(** X5: the sizes and the blob count the read stores are those of the
    last listed blobstore that carries the blobstore's name; when the
    listing has no such entry, zeros are stored. *)
Theorem resourceBlobstoreFileRead_last_listed_wins
    (m : NexusClient W) (e : Env W) (b : File.t) (w1 w2 : W)
    (gs : list Generic.t) :
  rd_schema (rd e) = resourceBlobstoreFileSchema ->
  BlobStore_File_Get m (Id (rd e)) (remote e) = ((Some b, None), w1) ->
  BlobStore_List m w1 = ((gs, None), w2) ->
  exists (g : Generic.t) (r : option error) (e' : Env W),
    ((g = Generic.zero
      /\ Forall (fun x => Generic.Name x <> File.Name b) gs)
     \/ exists pre post : list Generic.t,
          gs = pre ++ g :: post
          /\ Generic.Name g = File.Name b
          /\ Forall (fun x => Generic.Name x <> File.Name b) post)
    /\ resourceBlobstoreFileRead flattenBlobstoreSoftQuota m e = Done (r, e')
    /\ Get "available_space_in_bytes" (rd e')
       = VInt (Generic.AvailableSpaceInBytes g)
    /\ Get "blob_count" (rd e') = VInt (Generic.BlobCount g)
    /\ Get "total_size_in_bytes" (rd e')
       = VInt (Generic.TotalSizeInBytes g).
Proof.
  intros Hs Hget Hlist.
  destruct (resourceBlobstoreFileRead_state m e b w1 w2 gs Hs Hget Hlist)
    as (g & r & e' & Hg & Hrun & _ & _ & (Ha & Hb & Ht) & _).
  by exists g, r, e'.
Qed.

(** X6: the read never clears the [soft_quota] attribute: when the server
    reports the blobstore without a soft quota, the read succeeds and the
    state holds for [soft_quota] what it held before. *)
Theorem resourceBlobstoreFileRead_keeps_stale_soft_quota
    (m : NexusClient W) (e : Env W) (b : File.t) (w1 w2 : W)
    (gs : list Generic.t) :
  rd_schema (rd e) = resourceBlobstoreFileSchema ->
  BlobStore_File_Get m (Id (rd e)) (remote e) = ((Some b, None), w1) ->
  BlobStore_List m w1 = ((gs, None), w2) ->
  File.SoftQuota b = None ->
  exists e' : Env W,
    resourceBlobstoreFileRead flattenBlobstoreSoftQuota m e = Done (None, e')
    /\ GetOk "soft_quota" (rd e') = GetOk "soft_quota" (rd e).
Proof.
  intros Hs Hget Hlist Hq.
  destruct (resourceBlobstoreFileRead_state m e b w1 w2 gs Hs Hget Hlist)
    as (g & r & e' & _ & Hrun & _ & _ & _ & Hstale).
  destruct (Hstale Hq) as [-> Hsame]. by exists e'.
Qed.



End Callbacks.




(** X1 at the configuration of the usage example. *)
Lemma resourceBlobstoreFileUpdate_example :
  exists bs : File.t,
    getBlobstoreFileFromResourceData Examples.example_env
    = Done (bs, Examples.example_env)
    /\ resourceBlobstoreFileUpdate Examples.accepting_client
         Examples.example_env
       = Done (None,
               mkEnv Examples.example_data tt
                     [CallBlobStoreFileUpdate "blobstore-file" bs]).
Proof.
  apply (resourceBlobstoreFileUpdate_spec Examples.accepting_client
           Examples.example_env);
    [reflexivity | vm_compute; reflexivity].
Defined.

(** X4 with only the name in the state and the blobstore on the server. *)
Lemma resourceBlobstoreFileRead_stores_blobstore_example :
  exists (r : option error) (e' : Env unit),
    resourceBlobstoreFileRead Examples.flatten_soft_quota
      (ReadExamples.serving_client ReadExamples.quota_file)
      ReadExamples.bare_env
    = Done (r, e')
    /\ Id (rd e') = "blobstore-file"
    /\ Get "name" (rd e') = VString "blobstore-file"
    /\ Get "path" (rd e') = VString "/nexus-data/blobstore-file"
    /\ remote e' = tt
    /\ calls e' = [CallBlobStoreFileGet "blobstore-file"; CallBlobStoreList].
Proof.
  apply (resourceBlobstoreFileRead_stores_blobstore
           Examples.flatten_soft_quota
           (ReadExamples.serving_client ReadExamples.quota_file)
           ReadExamples.bare_env ReadExamples.quota_file tt tt
           ReadExamples.listing);
    reflexivity.
Defined.

(** X5 on a listing that names the blobstore twice. *)
Lemma resourceBlobstoreFileRead_last_listed_wins_example :
  exists (g : Generic.t) (r : option error) (e' : Env unit),
    ((g = Generic.zero
      /\ Forall (fun x => Generic.Name x <> "blobstore-file")
                ReadExamples.listing)
     \/ exists pre post : list Generic.t,
          ReadExamples.listing = pre ++ g :: post
          /\ Generic.Name g = "blobstore-file"
          /\ Forall (fun x => Generic.Name x <> "blobstore-file") post)
    /\ resourceBlobstoreFileRead Examples.flatten_soft_quota
         (ReadExamples.serving_client ReadExamples.quota_file)
         ReadExamples.bare_env
       = Done (r, e')
    /\ Get "available_space_in_bytes" (rd e')
       = VInt (Generic.AvailableSpaceInBytes g)
    /\ Get "blob_count" (rd e') = VInt (Generic.BlobCount g)
    /\ Get "total_size_in_bytes" (rd e')
       = VInt (Generic.TotalSizeInBytes g).
Proof.
  apply (resourceBlobstoreFileRead_last_listed_wins
           Examples.flatten_soft_quota
           (ReadExamples.serving_client ReadExamples.quota_file)
           ReadExamples.bare_env ReadExamples.quota_file tt tt
           ReadExamples.listing);
    reflexivity.
Defined.

(** X6 on a state that holds a soft quota the server no longer reports. *)
Lemma resourceBlobstoreFileRead_keeps_stale_soft_quota_example :
  exists e' : Env unit,
    resourceBlobstoreFileRead Examples.flatten_soft_quota
      (ReadExamples.serving_client ReadExamples.plain_file)
      Examples.example_env
    = Done (None, e')
    /\ GetOk "soft_quota" (rd e')
       = GetOk "soft_quota" Examples.example_data.
Proof.
  apply (resourceBlobstoreFileRead_keeps_stale_soft_quota
           Examples.flatten_soft_quota
           (ReadExamples.serving_client ReadExamples.plain_file)
           Examples.example_env ReadExamples.plain_file tt tt
           ReadExamples.listing);
    reflexivity.
Defined.



End NexusReadFacts.

(* ===================================================================== *)
(** ** Validation functions *)
(* ===================================================================== *)

Module ValidationFacts.
Import Sdk Client Exec SdkFacts StateFacts.

(** [accepts] in terms of the errors the validation reports. *)
Lemma accepts_spec (s : Schema) (k : string) (v : value)
    (f : SchemaValidateFunc) :
  ValidateFunc s = Some f ->
  (accepts s k v = true <-> snd (f v k) = []).
Proof.
  intros Hf. unfold accepts. rewrite Hf.
  destruct (snd (f v k)); split; congruence.
Qed.

(** Case-sensitive [StringInSlice] accepts the listed strings only. *)
Lemma StringInSlice_accepts (valid : list string) (v : value) (k : string) :
  snd (validation.StringInSlice valid false v k) = []
  <-> exists x : string, v = VString x /\ In x valid.
Proof.
  unfold validation.StringInSlice.
  destruct v as [| | |x| |]; cbn [snd];
    try (split; [discriminate | intros (? & ? & _); discriminate]).
  destruct (existsb _ valid) eqn:Hex; cbn [snd].
  - split; [intros _|done]. exists x. split; [done|].
    apply existsb_exists in Hex as (y & Hin & Hy).
    rewrite andb_false_l, orb_false_r in Hy.
    apply String.eqb_eq in Hy. by subst.
  - split; [discriminate|]. intros (y & [= <-] & Hin).
    assert (Htrue : existsb
              (fun str => (x =? str)%string
                          || false && validation.EqualFold x str) valid
            = true).
    { apply existsb_exists. exists x. split; [done|].
      by rewrite String.eqb_refl. }
    congruence.
Qed.

(** [IntBetween] accepts the integers of the range only. *)
Lemma IntBetween_accepts (lo hi : Z) (v : value) (k : string) :
  snd (validation.IntBetween lo hi v k) = []
  <-> exists z : Z, v = VInt z /\ lo <= z <= hi.
Proof.
  unfold validation.IntBetween.
  destruct v as [| |z| | |]; cbn [snd];
    try (split; [discriminate | intros (? & ? & _); discriminate]).
  destruct (Z.ltb_spec z lo), (Z.ltb_spec hi z); cbn [orb snd];
    (split; [intros Herr | intros (z' & [= <-] & Hz)]);
    try discriminate; try lia; try done.
  exists z. split; [done|lia].
Qed.
End ValidationFacts.
(* ===================================================================== *)
(** ** The file blobstore schema: validation *)
(* ===================================================================== *)

Module NexusSchemaFacts.

Import Sdk SdkFacts ValidationFacts.
Import Nexus.

(** X9: the validation declared for [soft_quota.type] accepts the two
    strings ["spaceRemainingQuota"] and ["spaceUsedQuota"], spelled
    exactly so, and nothing else. *)
Theorem soft_quota_type_accepts (v : value) :
  exists s : Schema,
    attr_at ["soft_quota"; "type"] resourceBlobstoreFileSchema = Some s
    /\ (accepts s "type" v = true
        <-> v = VString "spaceRemainingQuota"
            \/ v = VString "spaceUsedQuota").
Proof.
  eexists. split; [reflexivity|].
  rewrite accepts_spec by reflexivity.
  rewrite StringInSlice_accepts. cbn [In].
  split.
  - intros (x & -> & [ <- | [ <- | Hf ] ]); [by left|by right|destruct Hf].
  - intros [ -> | -> ]; eexists; (split; [reflexivity|]); auto.
Qed.

End NexusSchemaFacts.

(* ===================================================================== *)
(** ** The user-token resource: read *)
(* ===================================================================== *)

Module SecurityReadFacts.

Import Sdk Client Exec SdkFacts StateFacts.
Import security Security.

Section Callbacks.

Context {W : Type}.
Variable ResourceID : Schema.

(** X10: [resourceSecurityUserTokenRead] sends one request.  An error of
    the client is returned with the resource data untouched.  With a
    configuration from the client the read returns [nil] whatever the
    schema of the resource data, the errors of [Set] being dropped, and
    the id is the fixed one.  A [nil] configuration without error makes
    the read panic. *)
Theorem resourceSecurityUserTokenRead_outcomes
    (m : NexusClient W) (e : Env W) :
  let g := Security_UserTokens_Get m (remote e) in
  let log := calls e ++ [CallSecurityUserTokensGet] in
  match fst g with
  | (_, Some err) =>
      resourceSecurityUserTokenRead m e
      = Done (Some err, mkEnv (rd e) (snd g) log)
  | (Some t, None) =>
      exists d' : ResourceData,
        resourceSecurityUserTokenRead m e
        = Done (None, mkEnv d' (snd g) log)
        /\ Id d' = "golbalUserTokenConfiguration"
        /\ rd_schema d' = rd_schema (rd e)
  | (None, None) =>
      resourceSecurityUserTokenRead m e
      = Panic "invalid memory address or nil pointer dereference"
  end.
Proof.
  intros g log. subst g log.
  unfold resourceSecurityUserTokenRead, setSecurityUserTokenToResourceData.
  run.
  destruct (Security_UserTokens_Get m (remote e)) as [[[t|] [err|]] w1];
    run; try reflexivity.
  destruct (Set_ "enabled" _ _) as [d1 err1] eqn:H1. run.
  destruct (Set_ "protect_content" _ _) as [d2 err2] eqn:H2. run.
  exists d2. split; [reflexivity|].
  pose proof (Set_id "protect_content"
                (VBool (UserTokenConfiguration.ProtectContent t)) d1) as Hi2.
  pose proof (Set_schema "protect_content"
                (VBool (UserTokenConfiguration.ProtectContent t)) d1) as Hs2.
  rewrite H2 in Hi2, Hs2. cbn [fst] in Hi2, Hs2.
  pose proof (Set_id "enabled" (VBool (UserTokenConfiguration.Enabled t))
                (SetId "golbalUserTokenConfiguration" (rd e))) as Hi1.
  pose proof (Set_schema "enabled"
                (VBool (UserTokenConfiguration.Enabled t))
                (SetId "golbalUserTokenConfiguration" (rd e))) as Hs1.
  rewrite H1 in Hi1, Hs1. cbn [fst SetId rd_id rd_schema] in Hi1, Hs1.
  unfold Id. split; congruence.
Qed.

(** The run of the read on the resource's own schema. *)
Lemma resourceSecurityUserTokenRead_found
    (m : NexusClient W) (e : Env W) (t : UserTokenConfiguration.t) (w1 : W) :
  rd_schema (rd e) = resourceSecurityUserTokenSchema ResourceID ->
  Security_UserTokens_Get m (remote e) = ((Some t, None), w1) ->
  resourceSecurityUserTokenRead m e
  = Done (None,
          mkEnv
            (mkResourceData
               (resourceSecurityUserTokenSchema ResourceID)
               (<["protect_content" :=
                    VBool (UserTokenConfiguration.ProtectContent t)]>
                  (<["enabled" := VBool (UserTokenConfiguration.Enabled t)]>
                     (rd_attrs (rd e))))
               "golbalUserTokenConfiguration")
            w1 (calls e ++ [CallSecurityUserTokensGet])).
Proof.
  intros Hs Hget.
  unfold resourceSecurityUserTokenRead, setSecurityUserTokenToResourceData.
  run. rewrite Hget. run.
  unfold Set_. cbn [SetId rd_schema rd_attrs rd_id]. rewrite Hs.
  reflexivity.
Qed.

(** X11: reading and building are inverse to each other: after a read
    that got the configuration [t] from the server,
    [getSecurityUserTokenFromResourceData] returns [t]. *)
Theorem resourceSecurityUserTokenRead_round_trip
    (m : NexusClient W) (e : Env W) (t : UserTokenConfiguration.t) (w1 : W) :
  rd_schema (rd e) = resourceSecurityUserTokenSchema ResourceID ->
  Security_UserTokens_Get m (remote e) = ((Some t, None), w1) ->
  exists e' : Env W,
    resourceSecurityUserTokenRead m e = Done (None, e')
    /\ getSecurityUserTokenFromResourceData e' = Done (t, e').
Proof.
  intros Hs Hget. eexists.
  split; [exact (resourceSecurityUserTokenRead_found m e t w1 Hs Hget)|].
  unfold getSecurityUserTokenFromResourceData. run.
  rewrite Get_insert_ne by discriminate.
  erewrite Get_insert_eq by reflexivity. run.
  erewrite Get_insert_eq by reflexivity. run.
  by destruct t.
Qed.

(** X12: the read keeps the resource data typed by the resource's
    schema. *)
Theorem resourceSecurityUserTokenRead_keeps_typing
    (m : NexusClient W) (e : Env W) (t : UserTokenConfiguration.t) (w1 : W) :
  rd_schema (rd e) = resourceSecurityUserTokenSchema ResourceID ->
  well_typed (rd e) = true ->
  Security_UserTokens_Get m (remote e) = ((Some t, None), w1) ->
  exists e' : Env W,
    resourceSecurityUserTokenRead m e = Done (None, e')
    /\ well_typed (rd e') = true.
Proof.
  intros Hs Hwt Hget. eexists.
  split; [exact (resourceSecurityUserTokenRead_found m e t w1 Hs Hget)|].
  cbn [rd]. destruct e as [[sm a i] w c]. cbn in Hs. subst sm.
  cbn [rd rd_attrs] in *.
  repeat (eapply (well_typed_insert _ _ _ _ _ i); [reflexivity|done|]).
  exact Hwt.
Qed.

End Callbacks.

(** X11 on a state that says enabled while the server says disabled and
    protected. *)
Lemma resourceSecurityUserTokenRead_round_trip_example :
  exists e' : Env unit,
    resourceSecurityUserTokenRead
      (ReadExamples.serving_client ReadExamples.plain_file)
      Examples.user_token_env
    = Done (None, e')
    /\ getSecurityUserTokenFromResourceData e'
       = Done (UserTokenConfiguration.mk false true, e').
Proof.
  apply (resourceSecurityUserTokenRead_round_trip Examples.computed_string
           (ReadExamples.serving_client ReadExamples.plain_file)
           Examples.user_token_env (UserTokenConfiguration.mk false true) tt);
    reflexivity.
Defined.

(** X12 on the same input. *)
Lemma resourceSecurityUserTokenRead_keeps_typing_example :
  exists e' : Env unit,
    resourceSecurityUserTokenRead
      (ReadExamples.serving_client ReadExamples.plain_file)
      Examples.user_token_env
    = Done (None, e')
    /\ well_typed (rd e') = true.
Proof.
  apply (resourceSecurityUserTokenRead_keeps_typing Examples.computed_string
           (ReadExamples.serving_client ReadExamples.plain_file)
           Examples.user_token_env (UserTokenConfiguration.mk false true) tt);
    [reflexivity | vm_compute; reflexivity | reflexivity].
Defined.

End SecurityReadFacts.

(* ===================================================================== *)
(** ** HTTP client schemas and yum proxy data source: further properties *)
(* ===================================================================== *)

Module RepositorySchemaFacts.

Import Sdk Client Exec SdkFacts StateFacts ValidationFacts SchemaChecks.
Import Repository.

(** X13: the validation of the configurable HTTP client attributes.
    [retries] accepts the integers from 0 to 10 and [timeout] those from
    0 to 3600, their declared defaults among them;
    [authentication.type] accepts ["ntlm"] and ["username"], spelled
    exactly so, and nothing else. *)
Theorem ResourceHTTPClient_validation (v : value) :
  (exists s : Schema,
      attr_at ["http_client"; "connection"; "retries"]
              [("http_client", ResourceHTTPClient)] = Some s
      /\ (accepts s "retries" v = true
          <-> exists z : Z, v = VInt z /\ 0 <= z <= 10)
      /\ accepts s "retries" (Default s) = true)
  /\ (exists s : Schema,
        attr_at ["http_client"; "connection"; "timeout"]
                [("http_client", ResourceHTTPClient)] = Some s
        /\ (accepts s "timeout" v = true
            <-> exists z : Z, v = VInt z /\ 0 <= z <= 3600)
        /\ accepts s "timeout" (Default s) = true)
  /\ (exists s : Schema,
        attr_at ["http_client"; "authentication"; "type"]
                [("http_client", ResourceHTTPClient)] = Some s
        /\ (accepts s "type" v = true
            <-> v = VString "ntlm" \/ v = VString "username")).
Proof.
  repeat split; eexists; (split; [reflexivity|]).
  - split; [|reflexivity].
    rewrite accepts_spec by reflexivity. apply IntBetween_accepts.
  - split; [|reflexivity].
    rewrite accepts_spec by reflexivity. apply IntBetween_accepts.
  - rewrite accepts_spec by reflexivity.
    rewrite StringInSlice_accepts. cbn [In].
    split.
    + intros (x & -> & [ <- | [ <- | Hf ] ]); [by left|by right|destruct Hf].
    + intros [ -> | -> ]; eexists; (split; [reflexivity|]); auto.
Qed.

(** X14: the data source's HTTP client schema declares the attributes of
    the resource's one, under the same paths and with the same types;
    every one of them is computed and none can be configured: none is
    required or optional, none declares a default, a validation or a
    bound on its items. *)
Theorem DataSourceHTTPClient_mirrors_resource :
  signature "http_client" DataSourceHTTPClient
  = signature "http_client" ResourceHTTPClient
  /\ all_under computed_only "http_client" DataSourceHTTPClient = true
  /\ mistyped_defaults "http_client" DataSourceHTTPClient = [].
Proof. repeat split. Qed.

(** X15: the flags of every attribute declared for the file blobstore and
    for the HTTP client, as resource and as data source, fit together:
    each declares a type, is required, optional or computed, is not
    required together with optional or computed, declares no default when
    required or only computed, declares its element when a list, and
    bounds its items only when a list. *)
Theorem declared_flags_consistent :
  forallb (fun ks => all_under flags_consistent (fst ks) (snd ks))
          Nexus.resourceBlobstoreFileSchema = true
  /\ all_under flags_consistent "http_client" ResourceHTTPClient = true
  /\ all_under flags_consistent "http_client" DataSourceHTTPClient = true.
Proof. repeat split. Qed.

Section YumProxy.

Context {W : Type}.
Variables DataSourceID DataSourceName DataSourceOnline DataSourceCleanup
  DataSourceNegativeCache DataSourceProxy DataSourceRoutingRule
  DataSourceStorage DataSourceYumSigning : Schema.
Variable resourceYumProxyRepositoryRead : CallbackFunc W.

(** X16: the id the resource data held before plays no part in the data
    source's Read: started with any other id, it does the same. *)
Theorem dataSourceRepositoryYumProxyRead_ignores_id
    (m : NexusClient W) (e : Env W) (i : string) :
  dataSourceRepositoryYumProxyRead resourceYumProxyRepositoryRead m
    (mkEnv (SetId i (rd e)) (remote e) (calls e))
  = dataSourceRepositoryYumProxyRead resourceYumProxyRepositoryRead m e.
Proof.
  unfold dataSourceRepositoryYumProxyRead. run.
  rewrite Get_SetId.
  destruct (Get "name" (rd e)); run; reflexivity.
Qed.

(** X17: with [name] declared as a string and not set, the data source's
    Read does not fail by itself: it sets the empty id and goes on with
    the proxy repository read. *)
Theorem dataSourceRepositoryYumProxyRead_unset_name
    (m : NexusClient W) (e : Env W) :
  Type_ DataSourceName = TypeString ->
  rd_schema (rd e)
  = ResSchema
      (DataSourceRepositoryYumProxy
         DataSourceID DataSourceName DataSourceOnline DataSourceCleanup
         DataSourceNegativeCache DataSourceProxy DataSourceRoutingRule
         DataSourceStorage DataSourceYumSigning
         resourceYumProxyRepositoryRead) ->
  rd_attrs (rd e) !! "name" = None ->
  dataSourceRepositoryYumProxyRead resourceYumProxyRepositoryRead m e
  = resourceYumProxyRepositoryRead m
      (mkEnv (SetId EmptyString (rd e)) (remote e) (calls e)).
Proof.
  intros Hty Hs Hname.
  unfold dataSourceRepositoryYumProxyRead. run.
  unfold Get. rewrite Hs. cbn [ResSchema DataSourceRepositoryYumProxy
                               schema_lookup String.eqb Ascii.eqb Bool.eqb].
  rewrite Hname, Hty. cbn [zero_value]. run. reflexivity.
Qed.

End YumProxy.

(** X17 on a lookup that names no repository. *)
Lemma dataSourceRepositoryYumProxyRead_unset_name_example :
  dataSourceRepositoryYumProxyRead Examples.no_read Examples.accepting_client
    (mkEnv (mkResourceData (ResSchema Examples.yum_data_source) ∅ "old")
           tt [])
  = Examples.no_read Examples.accepting_client
      (mkEnv (mkResourceData (ResSchema Examples.yum_data_source) ∅
                             EmptyString)
             tt []).
Proof.
  apply (dataSourceRepositoryYumProxyRead_unset_name
           Examples.computed_string Examples.named_string
           Examples.computed_string Examples.computed_string
           Examples.computed_string Examples.computed_string
           Examples.computed_string Examples.computed_string
           Examples.computed_string Examples.no_read
           Examples.accepting_client
           (mkEnv (mkResourceData (ResSchema Examples.yum_data_source) ∅
                                  "old") tt []));
    reflexivity.
Defined.

End RepositorySchemaFacts.

(* ===================================================================== *)
(** ** Edge cases of the builders and of the blobstore read *)
(* ===================================================================== *)

Module EdgeFacts.

Import Sdk Client Exec SdkFacts StateFacts.

Section Callbacks.

Context {W : Type}.
Variable ResourceID : Schema.
Variable flattenBlobstoreSoftQuota : blobstore.SoftQuota.t -> value.

(** X18: with [protect_content] not set, the configuration built from the
    resource data has [ProtectContent] false, and [Enabled] as the
    [enabled] attribute says; building changes nothing. *)
Theorem getSecurityUserTokenFromResourceData_unset_protect_content
    (e : Env W) (enabled : bool) :
  rd_schema (rd e) = Security.resourceSecurityUserTokenSchema ResourceID ->
  rd_attrs (rd e) !! "enabled" = Some (VBool enabled) ->
  rd_attrs (rd e) !! "protect_content" = None ->
  Security.getSecurityUserTokenFromResourceData e
  = Done (security.UserTokenConfiguration.mk enabled false, e).
Proof.
  intros Hs Hen Hpc.
  assert (Hge : Get "enabled" (rd e) = VBool enabled).
  { unfold Get. rewrite Hs, Hen. reflexivity. }
  assert (Hgp : Get "protect_content" (rd e) = VBool false).
  { unfold Get. rewrite Hs, Hpc. reflexivity. }
  unfold Security.getSecurityUserTokenFromResourceData.
  run. rewrite Hge. run. rewrite Hgp. run. reflexivity.
Qed.

(** X19: when the server knows the blobstore no more ([Get] answers [nil]
    and no error) and lists no blobstore at all, the read clears the id,
    returns [nil] and leaves the attributes as they are. *)
Theorem resourceBlobstoreFileRead_gone_empty_listing
    (m : NexusClient W) (e : Env W) (w1 w2 : W) :
  BlobStore_File_Get m (Id (rd e)) (remote e) = ((None, None), w1) ->
  BlobStore_List m w1 = (([], None), w2) ->
  exists e' : Env W,
    Nexus.resourceBlobstoreFileRead flattenBlobstoreSoftQuota m e
    = Done (None, e')
    /\ Id (rd e') = EmptyString
    /\ rd_attrs (rd e') = rd_attrs (rd e)
    /\ calls e' = calls e ++ [CallBlobStoreFileGet (Id (rd e));
                              CallBlobStoreList].
Proof.
  intros Hget Hlist.
  pose proof (NexusFacts.resourceBlobstoreFileRead_nil_blobstore
                flattenBlobstoreSoftQuota m e w1 Hget) as Hrun.
  cbv zeta in Hrun. rewrite Hlist in Hrun.
  eexists. split; [exact Hrun|]. by repeat split.
Qed.

End Callbacks.

(** X18 on a configuration that only enables user tokens. *)
Lemma getSecurityUserTokenFromResourceData_unset_example :
  Security.getSecurityUserTokenFromResourceData
    (mkEnv (mkResourceData
              (Security.resourceSecurityUserTokenSchema
                 Examples.computed_string)
              (<["enabled" := VBool true]> ∅) EmptyString)
           tt ([] : list Call))
  = Done (security.UserTokenConfiguration.mk true false,
          mkEnv (mkResourceData
                   (Security.resourceSecurityUserTokenSchema
                      Examples.computed_string)
                   (<["enabled" := VBool true]> ∅) EmptyString)
                tt []).
Proof.
  apply (getSecurityUserTokenFromResourceData_unset_protect_content
           Examples.computed_string
           (mkEnv (mkResourceData
                     (Security.resourceSecurityUserTokenSchema
                        Examples.computed_string)
                     (<["enabled" := VBool true]> ∅) EmptyString)
                  tt []) true);
    reflexivity.
Defined.

(** X19 against a server that knows and lists no blobstore. *)
Lemma resourceBlobstoreFileRead_gone_example :
  exists e' : Env unit,
    Nexus.resourceBlobstoreFileRead Examples.flatten_soft_quota
      Examples.accepting_client Examples.example_env
    = Done (None, e')
    /\ Id (rd e') = EmptyString
    /\ rd_attrs (rd e') = Examples.example_attrs
    /\ calls e' = [CallBlobStoreFileGet "blobstore-file"; CallBlobStoreList].
Proof.
  apply (resourceBlobstoreFileRead_gone_empty_listing
           Examples.flatten_soft_quota Examples.accepting_client
           Examples.example_env tt tt);
    reflexivity.
Defined.

End EdgeFacts.
